(** * upstream: shard planning and transfer, verified against the Python source

    A shallow embedding of [upstream/clitool.py] and [upstream/streamer.py],
    read as the Python 2 code they are ([streamer.py] imports [urllib2]).
    Python values are modelled as the code has them: integers as [Z],
    [str] objects (byte strings) as [string], file contents as [list byte],
    floats as IEEE-754 binary64 values ([spec_float] with [prec = 53],
    [emax = 1024]), exceptions as a class with its constructor arguments,
    and the file system and the remote server as an explicit world that is
    threaded through every effectful call. *)

From Stdlib Require Import ZArith List String Ascii Lia Bool.
From Stdlib.Strings Require Import Byte.
From Stdlib Require Import DecimalString DecimalPos SpecFloat.
From stdpp Require Import gmap strings.

Set Default Proof Using "Type".
Local Open Scope Z_scope.
Local Open Scope string_scope.

(** ** Python results and exceptions *)

Module Py.

(** The exception classes that the two source files can raise, either
    by a [raise] statement or through the interpreter and the builtins
    they call. *)
Inductive exc_class :=
| AssertionError | AttributeError | TypeError | ValueError | IndexError
| ZeroDivisionError | OverflowError | OSError | IOError
| NotImplementedError | SystemExit | URLError
| FileError | ResponseError | ConnectError | ChunkError.

#[export] Instance exc_class_eq_dec : EqDecision exc_class.
Proof. solve_decision. Defined.

(** [type(e).__name__] *)
Definition exc_name (c : exc_class) : string :=
  match c with
  | AssertionError => "AssertionError" | AttributeError => "AttributeError"
  | TypeError => "TypeError" | ValueError => "ValueError"
  | IndexError => "IndexError" | ZeroDivisionError => "ZeroDivisionError"
  | OverflowError => "OverflowError" | OSError => "OSError"
  | IOError => "IOError" | NotImplementedError => "NotImplementedError"
  | SystemExit => "SystemExit" | URLError => "URLError"
  | FileError => "FileError" | ResponseError => "ResponseError"
  | ConnectError => "ConnectError" | ChunkError => "ChunkError"
  end.

(** An exception object: its class and the arguments its constructor
    was called with ([e.args]); every [raise] of the two files passes
    at most one string. *)
Record exn := Exn { exn_class : exc_class; exn_args : list string }.

Inductive res (A : Type) :=
| Ok (a : A)
| Raise (e : exn).
Arguments Ok {A} a.
Arguments Raise {A} e.

Definition raises {A} (r : res A) (c : exc_class) : Prop :=
  exists args, r = Raise (Exn c args).

(** The result is an exception whose class is called [name]. *)
Definition signals {A} (r : res A) (name : string) : Prop :=
  exists e, r = Raise e /\ exc_name (exn_class e) = name.

Definition rbind {A B} (r : res A) (k : A -> res B) : res B :=
  match r with
  | Ok a => k a
  | Raise e => Raise e
  end.

(** [%d] and [%s] applied to an integer. *)
Definition str_of_int (z : Z) : string :=
  NilZero.string_of_int (Z.to_int z).

End Py.
Import Py.

Notation "'let?' x ':=' r 'in' k" := (rbind r (fun x => k))
  (at level 10, x name, r at level 100, k at level 200).

(** ** Python floats

    CPython floats are IEEE-754 binary64 numbers.  The operations that
    [calculate_shards] applies to them are modelled on the standard
    library's executable specification of binary64. *)

Module PyFloat.

Definition prec : Z := 53.
Definition emax : Z := 1024.

Abbreviation float := spec_float.

(** [float(n)] for an integer [n]: the nearest binary64 value, ties to
    even; [OverflowError] when [n] is too large. *)
Definition float_of_int (n : Z) : res float :=
  match binary_normalize prec emax n 0 false with
  | S754_infinity _ | S754_nan =>
      Raise (Exn OverflowError ["long int too large to convert to float"])
  | x => Ok x
  end.

(** [a / b] on floats: [ZeroDivisionError] for a zero divisor, the
    correctly rounded quotient otherwise. *)
Definition truediv (a b : float) : res float :=
  match b with
  | S754_zero _ => Raise (Exn ZeroDivisionError ["float division by zero"])
  | _ => Ok (SFdiv prec emax a b)
  end.

(** [n / b] with an integer on the left: the integer is converted
    first. *)
Definition int_truediv (n : Z) (b : float) : res float :=
  let? a := float_of_int n in truediv a b.

(** The integer value of [math.ceil(x)] for a finite [x]. *)
Definition ceil_finite (s : bool) (m : positive) (e : Z) : Z :=
  let mag := Z.pos m in
  if s then - (match e with
               | Z.neg k => mag / 2 ^ Z.pos k
               | _ => mag * 2 ^ e
               end)
  else match e with
       | Z.neg k => - ((- mag) / 2 ^ Z.pos k)
       | _ => mag * 2 ^ e
       end.

(** [int(math.ceil(x))]: [math.ceil] keeps infinities and NaN, which
    [int] then refuses. *)
Definition int_ceil (x : float) : res Z :=
  match x with
  | S754_zero _ => Ok 0
  | S754_finite s m e => Ok (ceil_finite s m e)
  | S754_infinity _ =>
      Raise (Exn OverflowError ["cannot convert float infinity to integer"])
  | S754_nan => Raise (Exn ValueError ["cannot convert float NaN to integer"])
  end.

End PyFloat.

(** ** Strings as the path functions use them *)

Module Str.

Definition is_slash (c : ascii) : bool := Ascii.eqb c "/".

(** [s.split('/')] *)
Fixpoint split_slash (s : string) : list string :=
  match s with
  | EmptyString => [""]
  | String c r =>
      let l := split_slash r in
      if is_slash c then "" :: l
      else match l with
           | h :: t => String c h :: t
           | [] => [String c ""]
           end
  end.

(** [(s[:i], s[i:])] for [i = s.rfind('/') + 1] *)
Fixpoint cut_last_slash (s : string) : string * string :=
  match s with
  | EmptyString => ("", "")
  | String c r =>
      let '(h, t) := cut_last_slash r in
      if is_slash c then (String c h, t)
      else match h with
           | EmptyString => ("", String c t)
           | _ => (String c h, t)
           end
  end.

(** [s.rstrip('/')] *)
Fixpoint rstrip_slash (s : string) : string :=
  match s with
  | EmptyString => ""
  | String c r =>
      match rstrip_slash r with
      | EmptyString => if is_slash c then "" else String c ""
      | r' => String c r'
      end
  end.

(** [s.startswith(p)] *)
Definition startswith (p s : string) : bool := String.prefix p s.

(** [s.endswith('/')] *)
Fixpoint endswith_slash (s : string) : bool :=
  match s with
  | EmptyString => false
  | String c EmptyString => is_slash c
  | String _ r => endswith_slash r
  end.

(** ['/'.join(l)] *)
Definition join_slash (l : list string) : string := String.concat "/" l.

(** [s.isdigit()] on a byte string: not empty, every character one of
    [0] .. [9]. *)
Definition is_digit (c : ascii) : bool :=
  let n := nat_of_ascii c in (48 <=? n)%nat && (n <=? 57)%nat.

Fixpoint all_digits (s : string) : bool :=
  match s with
  | EmptyString => true
  | String c r => is_digit c && all_digits r
  end.

Definition isdigit (s : string) : bool :=
  match s with
  | EmptyString => false
  | _ => all_digits s
  end.

(** [c.lower()] on one character of a byte string *)
Definition lower (c : ascii) : ascii :=
  let n := nat_of_ascii c in
  if (65 <=? n)%nat && (n <=? 90)%nat then ascii_of_nat (n + 32) else c.

(** [(s[:-1], s[-1])] of a string that is not empty *)
Fixpoint unsnoc (s : string) : option (string * ascii) :=
  match s with
  | EmptyString => None
  | String c r =>
      match unsnoc r with
      | None => Some ("", c)
      | Some (i, l) => Some (String c i, l)
      end
  end.

(** [s[-1]], when [s] is not empty *)
Definition last_char (s : string) : option ascii :=
  match unsnoc s with
  | Some (_, c) => Some c
  | None => None
  end.

(** [string.whitespace] *)
Definition is_space (c : ascii) : bool :=
  let n := nat_of_ascii c in
  (n =? 32)%nat || ((9 <=? n)%nat && (n <=? 13)%nat).

Fixpoint lstrip (s : string) : string :=
  match s with
  | String c r => if is_space c then lstrip r else s
  | EmptyString => ""
  end.

Fixpoint rstrip (s : string) : string :=
  match s with
  | EmptyString => ""
  | String c r =>
      match rstrip r with
      | EmptyString => if is_space c then "" else String c ""
      | r' => String c r'
      end
  end.

(** The value of a string of decimal digits, most significant first. *)
Fixpoint digits_value (acc : Z) (s : string) : Z :=
  match s with
  | EmptyString => acc
  | String c r => digits_value (10 * acc + (Z.of_nat (nat_of_ascii c) - 48)) r
  end.

End Str.

(** ** The world: file system, process environment and remote server *)

Module Http.

Inductive method := GET | POST.

(** One field of a [multipart/form-data] body: the field name, the file
    name sent with it and the bytes of the part. *)
Record part := Part {
  part_name : string;
  part_filename : string;
  part_data : list byte
}.

(** A call of the HTTP client as the two files make it: the method,
    the URL and, for a POST, the fields of the encoder.  What the
    library does below the call, such as a redirect it follows, is not
    part of it. *)
Record request := Request {
  rq_method : method;
  rq_url : string;
  rq_parts : list part
}.

(** [requests.Response], the value that the call returns (after a
    redirect, the answer that ended it): what the two files read of
    it. *)
Record response := Response {
  status_code : Z;
  reason : string;
  content : list byte;
  text : string
}.

End Http.
Import Http.

Module World.

(** A node of the file system; a directory keeps the size that [stat]
    reports for it. *)
Inductive node :=
| Dir (st_size : Z)
| File (data : list byte).

(** Files are keyed by their canonical absolute path, one string per
    component; there are no symbolic links. *)
Record world := World {
  fs : gmap (list string) node;
  cwd : list string;
  (** [$HOME], and the home directories of the password database *)
  home : string;
  pw_dir : string -> option string;
  (** the value of the next [uuid.uuid4().hex] *)
  uuid4_hex : string;
  (** [urlopen(url, timeout=1)]: the exception it raises, [None] when
      it returns; an exception of a subclass of [URLError] is filed
      under [URLError], as an [except URLError] sees it *)
  urlopen : string -> option exn;
  (** the server: the response that [requests] returns for a call,
      given the calls that were made before *)
  remote : list request -> request -> response;
  (** the calls of [requests.get], [requests.post] and [urlopen] made
      so far, oldest first *)
  wire : list request
}.

Definition set_fs (f : gmap (list string) node) (w : world) : world :=
  World f (cwd w) (home w) (pw_dir w) (uuid4_hex w) (urlopen w)
        (remote w) (wire w).

Definition set_wire (l : list request) (w : world) : world :=
  World (fs w) (cwd w) (home w) (pw_dir w) (uuid4_hex w) (urlopen w)
        (remote w) l.

(** Effectful Python code: a state transformer that returns a value or
    raises. *)
Definition M (A : Type) : Type := world -> res A * world.

Definition ret {A} (a : A) : M A := fun w => (Ok a, w).
Definition raise {A} (c : exc_class) (args : list string) : M A :=
  fun w => (Raise (Exn c args), w).
Definition bind {A B} (m : M A) (k : A -> M B) : M B :=
  fun w => match m w with
           | (Ok a, w') => k a w'
           | (Raise e, w') => (Raise e, w')
           end.
Definition lift {A} (r : res A) : M A := fun w => (r, w).
Definition get {A} (f : world -> A) : M A := fun w => (Ok (f w), w).

(** [try: body  except cls: handler] *)
Definition try_except {A} (body : M A) (cls : exc_class) (handler : M A)
  : M A :=
  fun w => match body w with
           | (Raise e, w') =>
               if decide (exn_class e = cls) then handler w'
               else (Raise e, w')
           | ok => ok
           end.

(** [assert b] *)
Definition py_assert (b : bool) : M unit :=
  if b then ret tt else raise AssertionError [].

(** [for x in l: body x] *)
Fixpoint for_each {A} (l : list A) (body : A -> M unit) : M unit :=
  match l with
  | [] => ret tt
  | x :: r => bind (body x) (fun _ => for_each r body)
  end.

End World.
Import World.

Notation "'let*' x ':=' c 'in' k" := (bind c (fun x => k))
  (at level 10, x name, c at level 100, k at level 200).
Notation "'let*' ' pat ':=' c 'in' k" :=
  (bind c (fun x => match x with pat => k end))
  (at level 10, pat pattern, c at level 100, k at level 200).
Notation "c ';;' k" := (bind c (fun _ => k))
  (at level 100, k at level 200, right associativity).

(** ** The [os] and [os.path] functions the two files call (POSIX) *)

Module Os.

(** [os.getcwd()] *)
Definition getcwd (w : world) : string := "/" ++ Str.join_slash (cwd w).

(** [os.path.isabs] *)
Definition isabs (p : string) : bool := Str.startswith "/" p.

(** [os.path.join(a, b)] *)
Definition join (a b : string) : string :=
  if Str.startswith "/" b then b
  else if String.eqb a "" || Str.endswith_slash a then a ++ b
  else a ++ "/" ++ b.

(** [os.path.split(p)] *)
Definition split (p : string) : string * string :=
  let '(head, tail) := Str.cut_last_slash p in
  match Str.rstrip_slash head with
  | EmptyString => (head, tail)
  | stripped => (stripped, tail)
  end.

(** The loop of [os.path.normpath] over the components of the path;
    [acc] is [new_comps] reversed. *)
Fixpoint normpath_comps (rooted : bool) (acc comps : list string)
  : list string :=
  match comps with
  | [] => rev acc
  | c :: rest =>
      if String.eqb c "" || String.eqb c "." then
        normpath_comps rooted acc rest
      else if negb (String.eqb c "..") then
        normpath_comps rooted (c :: acc) rest
      else match acc with
           | [] => if rooted then normpath_comps rooted acc rest
                   else normpath_comps rooted (c :: acc) rest
           | top :: below =>
               if String.eqb top ".." then
                 normpath_comps rooted (c :: acc) rest
               else normpath_comps rooted below rest
           end
  end.

(** [os.path.normpath(p)] *)
Definition normpath (p : string) : string :=
  match p with
  | EmptyString => "."
  | _ =>
      let initial :=
        if Str.startswith "/" p then
          if Str.startswith "//" p && negb (Str.startswith "///" p)
          then "//" else "/"
        else "" in
      let comps :=
        normpath_comps (negb (String.eqb initial "")) []
                       (Str.split_slash p) in
      match initial ++ Str.join_slash comps with
      | EmptyString => "."
      | r => r
      end
  end.

(** [os.path.abspath(p)] *)
Definition abspath (w : world) (p : string) : string :=
  normpath (if isabs p then p else join (getcwd w) p).

(** [(p[:i], p[i:])] for the first slash of [p], or the end of [p] *)
Fixpoint cut_first_slash (p : string) : string * string :=
  match p with
  | EmptyString => ("", "")
  | String c r =>
      if Str.is_slash c then ("", p)
      else let '(n, s) := cut_first_slash r in (String c n, s)
  end.

(** [os.path.expanduser(p)] *)
Definition expanduser (w : world) (p : string) : string :=
  match p with
  | String "~" r =>
      let '(name, suffix) := cut_first_slash r in
      let userhome :=
        match name with
        | EmptyString => Some (home w)
        | _ => pw_dir w name
        end in
      match userhome with
      | None => p
      | Some h =>
          match Str.rstrip_slash h ++ suffix with
          | EmptyString => "/"
          | e => e
          end
      end
  | _ => p
  end.

(** Path resolution: from the directory [cur], follow the components.
    Every component is looked up in a directory. *)
Fixpoint walk (f : gmap (list string) node) (cur comps : list string)
  : option (list string) :=
  match comps with
  | [] => Some cur
  | c :: rest =>
      match f !! cur with
      | Some (Dir _) =>
          if String.eqb c "" || String.eqb c "." then walk f cur rest
          else if String.eqb c ".." then walk f (removelast cur) rest
          else walk f (cur ++ [c]) rest
      | _ => None
      end
  end.

Definition resolve (w : world) (p : string) : option (list string) :=
  match p with
  | EmptyString => None
  | _ => walk (fs w) (if isabs p then [] else cwd w) (Str.split_slash p)
  end.

(** [os.stat(p)], [None] when it fails *)
Definition stat (w : world) (p : string) : option node :=
  match resolve w p with
  | Some k => fs w !! k
  | None => None
  end.

(** [os.path.exists], [os.path.isdir], [os.path.isfile] *)
Definition exists_ (w : world) (p : string) : bool :=
  match stat w p with Some _ => true | None => false end.
Definition isdir (w : world) (p : string) : bool :=
  match stat w p with Some (Dir _) => true | _ => false end.
Definition isfile (w : world) (p : string) : bool :=
  match stat w p with Some (File _) => true | _ => false end.

(** [os.path.getsize(p)] *)
Definition getsize (p : string) : M Z :=
  fun w => match stat w p with
           | Some (Dir n) => (Ok n, w)
           | Some (File d) => (Ok (Z.of_nat (length d)), w)
           | None => (Raise (Exn OSError ["No such file or directory"]), w)
           end.

(** [open(p, 'rb').read()] *)
Definition read_file (p : string) : M (list byte) :=
  fun w => match stat w p with
           | Some (File d) => (Ok d, w)
           | Some (Dir _) => (Raise (Exn IOError ["Is a directory"]), w)
           | None => (Raise (Exn IOError ["No such file or directory"]), w)
           end.

Inductive write_mode := wb | ab.

(** [open(p, 'wb')] and [open(p, 'ab')]: the file is created when it
    is missing, and ['wb'] empties it when it is there.  The handle is
    the key of the file. *)
Definition open_write (p : string) (mode : write_mode)
  : M (list string) :=
  fun w =>
    match resolve w p with
    | None => (Raise (Exn IOError ["No such file or directory"]), w)
    | Some k =>
        match fs w !! k, mode with
        | Some (Dir _), _ => (Raise (Exn IOError ["Is a directory"]), w)
        | Some (File _), ab => (Ok k, w)
        | _, _ => (Ok k, set_fs (<[k := File []]> (fs w)) w)
        end
    end.

(** [f.write(data)] on a handle opened for writing *)
Definition write (k : list string) (data : list byte) : M unit :=
  fun w =>
    let old := match fs w !! k with Some (File d) => d | _ => [] end in
    (Ok tt, set_fs (<[k := File (old ++ data)]> (fs w)) w).

(** [os.abspath]: module [os] has no such attribute (the function is
    [os.path.abspath]); evaluating the name raises, before the argument
    of the call is evaluated. *)
Definition os_abspath : M string :=
  raise AttributeError ["'module' object has no attribute 'abspath'"].

End Os.

(** ** upstream/streamer.py *)

Module Streamer.

(** Modelled from the spec: class [Chunk] of [upstream/chunk.py] (the
    [Shard] of [upstream/shard.py] in [clitool.py]) is not among the
    sources.  Its fields are those of the specification's data model,
    which are also the attributes that [streamer.py] reads; an absent
    or empty field is the empty string, which Python treats as false. *)
Record Chunk := {
  filehash : string;
  decryptkey : string;
  filename : string;
  uri : string
}.

(** A [Streamer] object *)
Record t := { server : string }.

(** The attributes that [class Streamer] defines. *)
Definition class_attrs : list string :=
  ["__init__"; "check_connectivity"; "upload"; "download";
   "_upload_check_path"; "_upload_form_encoded";
   "_upload_chunked_encoded"; "_download_chunk"; "_filestream"].

(** [Streamer.<name>] *)
Definition getattr (name : string) : res unit :=
  if existsb (String.eqb name) class_attrs then Ok tt
  else Raise (Exn AttributeError
    ["type object 'Streamer' has no attribute '" ++ name ++ "'"]).

(** Binding the keyword arguments of a call to [fname], whose
    parameters are [params]. *)
Definition bind_keywords (fname : string) (params given : list string)
  : res unit :=
  match List.find (fun k => negb (existsb (String.eqb k) params)) given with
  | Some k => Raise (Exn TypeError
      [fname ++ "() got an unexpected keyword argument '" ++ k ++ "'"])
  | None => Ok tt
  end.

(** The parameters, after [self], of [upload] and [download]. *)
Definition upload_params : list string := ["filepath"].
Definition download_params : list string := ["chunk"; "dest"; "chunksize"].

(** [requests.post(url, data=MultipartEncoder({'file': (name, f)}))] and
    [requests.get(url, stream=True)]: the call goes on the wire and
    returns the response of the server. *)
Definition send (rq : request) : M response :=
  fun w => (Ok (remote w (wire w) rq), set_wire (wire w ++ [rq]) w).

(** The pieces that [resp.iter_content(n)] yields of a streamed body:
    [n] bytes each, the last one shorter.  With [n = 0] every read is
    empty and no piece is yielded.  [fuel] bounds the number of reads;
    the length of the body is enough of it. *)
Fixpoint pieces (fuel n : nat) (body : list byte) : list (list byte) :=
  match fuel, body with
  | _, [] => []
  | O, _ => [body]
  | S fuel', _ =>
      match n with
      | O => []
      | _ => firstn n body :: pieces fuel' n (skipn n body)
      end
  end.

(** [resp.iter_content(chunk_size)].  The properties of what a download
    writes are stated for [chunk_size >= 0]; a negative size, which the
    library hands on to the read of the socket, is taken as [0]
    here. *)
Definition iter_content (r : response) (chunk_size : Z)
  : list (list byte) :=
  pieces (length (content r)) (Z.to_nat chunk_size) (content r).

(** The result of [download]: [True], or the [None] of a function that
    falls off its end. *)
Inductive download_result := ReturnTrue | ReturnNone.

(** [urlopen(url, timeout=1)], whose value the code drops: the call
    goes on the wire, and returns or raises as the world has it. *)
Definition probe (url : string) : M unit :=
  fun w =>
    (match urlopen w url with
     | None => Ok tt
     | Some e => Raise e
     end, set_wire (wire w ++ [Request GET url []]) w).

(** [check_connectivity(self)] *)
Definition check_connectivity (self : t) : M unit :=
  try_except
    (probe (server self))
    URLError
    (raise ConnectError ["Could not connect to server."]).

(** [Streamer(server)] *)
Definition init (srv : string) : M t :=
  let self := {| server := srv |} in
  check_connectivity self ;; ret self.

(** [_upload_check_path(self, filepath)] *)
Definition _upload_check_path (self : t) (filepath : string) : M string :=
  let* expandedpath := get (fun w => Os.expanduser w filepath) in
  try_except
    (let* isf := get (fun w => Os.isfile w expandedpath) in py_assert isf)
    AssertionError
    (raise FileError [filepath ++ " not a file or not found"]) ;;
  ret expandedpath.

(** [_upload_form_encoded(self, url, filepath)] *)
Definition _upload_form_encoded (self : t) (url filepath : string)
  : M response :=
  let* validpath := _upload_check_path self filepath in
  let* data := Os.read_file validpath in
  send (Request POST url [Part "file" "testfile" data]).

(** [_upload_chunked_encoded(self, url, filepath)] *)
Definition _upload_chunked_encoded (self : t) (url filepath : string)
  : M response :=
  raise NotImplementedError [].

(** [_filestream(self, filepath)] is a generator: nothing of it runs
    before the first [next()].  This is the body up to the first
    [yield], whose value is the first piece.  [os.path.isfile] is called
    without an [assert], so the handler of [AssertionError] has nothing
    to catch; the file is opened; [self.chunk_size] is an attribute that
    [__init__] does not set. *)
Definition _filestream_first (self : t) (filepath : string)
  : M (list byte) :=
  let* expandedpath := get (fun w => Os.expanduser w filepath) in
  try_except
    (let* _ := get (fun w => Os.isfile w expandedpath) in ret tt)
    AssertionError
    (raise FileError [filepath ++ " not a file or not found"]) ;;
  let* _ := Os.read_file expandedpath in
  raise AttributeError ["'Streamer' object has no attribute 'chunk_size'"].

Section Methods.

(** [Chunk().from_json(text)]: the parser is part of the missing
    [upstream/chunk.py]. *)
Variable from_json : string -> res Chunk.

(** [upload(self, filepath)] *)
Definition upload (self : t) (filepath : string) : M Chunk :=
  let url := server self ++ "/api/upload" in
  let* r := _upload_form_encoded self url filepath in
  if Z.eqb (status_code r) 404 then
    raise ResponseError ["API call not found."]
  else if Z.eqb (status_code r) 402 then
    raise ResponseError ["Payment required."]
  else if Z.eqb (status_code r) 500 then
    raise ResponseError ["Server error."]
  else if Z.eqb (status_code r) 201 then
    lift (from_json (text r))
  else
    raise ResponseError
      ["Received status code " ++ str_of_int (status_code r)
         ++ " " ++ reason r].

End Methods.

(** [download(self, chunk, dest=None, chunksize=1024)]; [dest] is
    [None] when no destination is given. *)
Definition download (self : t) (chunk : Chunk) (dest : option string)
                    (chunksize : Z) : M download_result :=
  try_except
    (py_assert (negb (String.eqb (filehash chunk) "")))
    AssertionError
    (raise ChunkError []) ;;
  let no_dest :=
    let* path := Os.os_abspath in
    let fname :=
      if String.eqb (filename chunk) "" then filehash chunk
      else filename chunk in
    ret (path, fname) in
  let* '(path, fname) :=
    match dest with
    | Some d =>
        if negb (String.eqb d "") then
          try_except
            (let* ex := get (fun w => Os.exists_ w d) in
             py_assert (negb ex))
            AssertionError
            (raise FileError [d ++ " already exists"]) ;;
          let '(path0, fname) := Os.split d in
          let* path :=
            if String.eqb path0 "" then
              get (fun w => Os.abspath w (Os.getcwd w))
            else ret path0 in
          try_except
            (let* isd := get (fun w => Os.isdir w path) in py_assert isd)
            AssertionError
            (raise FileError [path ++ " is not a valid path"]) ;;
          ret (path, fname)
        else no_dest
    | None => no_dest
    end in
  let savepath := Os.join path fname in
  let url := server self ++ "/api/download/" ++ uri chunk in
  let* resp := send (Request GET url []) in
  if Z.eqb (status_code resp) 200 then
    let* f := Os.open_write savepath Os.wb in
    for_each (iter_content resp chunksize) (Os.write f) ;;
    ret ReturnTrue
  else ret ReturnNone.

End Streamer.

(** ** upstream/clitool.py

    What the functions print is not part of the model; everything else
    is. *)

Module Clitool.

(** The [argparse] namespace *)
Inductive size_arg :=
| SizeInt (n : Z)        (** the default, [SizeHelpers.mib_to_bytes(250)] *)
| SizeStr (s : string).  (** the text after [--shard-size] *)

Record args := {
  a_server : string;
  a_verbose : bool;
  a_file : string;
  a_shard_size : size_arg;
  a_uri : list string;
  a_dest : option string
}.

(** Modelled from the spec: [SizeHelpers] of [upstream/file.py] is not
    among the sources; [k] multiplies the magnitude by 1024 and [m] by
    1024 squared. *)
Definition kib_to_bytes (n : Z) : Z := n * 1024.
Definition mib_to_bytes (n : Z) : Z := n * (1024 * 1024).

(** [str(size)] *)
Definition str (size : size_arg) : string :=
  match size with
  | SizeInt n => str_of_int n
  | SizeStr s => s
  end.

(** [int(s)] for a string: white space around the number and a sign
    are accepted, then decimal digits. *)
Definition int_of_str (s : string) : res Z :=
  let body := Str.rstrip (Str.lstrip s) in
  let '(neg, digits) :=
    match body with
    | String "-" r => (true, r)
    | String "+" r => (false, r)
    | _ => (false, body)
    end in
  if Str.isdigit digits then
    Ok (if neg then - Str.digits_value 0 digits
        else Str.digits_value 0 digits)
  else Raise (Exn ValueError
    ["invalid literal for int() with base 10: '" ++ s ++ "'"]).

(** [parse_shard_size(size)]; [Ok None] is the [None] of the bare
    [return]. *)
Definition parse_shard_size (size : size_arg) : res (option Z) :=
  let size := str size in
  if Str.isdigit size then
    let? n := int_of_str size in Ok (Some n)
  else
    match Str.unsnoc size with
    | None => Raise (Exn IndexError ["string index out of range"])
    | Some (number, last_char) =>
        let last := Str.lower last_char in
        let choices := ["b"; "k"; "m"]%char in
        if negb (existsb (Ascii.eqb last) choices) then Ok None
        else if Ascii.eqb last "b" then
          let? n := int_of_str number in Ok (Some n)
        else if Ascii.eqb last "k" then
          let? n := int_of_str number in Ok (Some (kib_to_bytes n))
        else if Ascii.eqb last "m" then
          let? n := int_of_str number in Ok (Some (mib_to_bytes n))
        else Ok None
    end.

(** [int(math.ceil(file_size / float(shard_size)))]; [shard_size] is
    [None] when [parse_shard_size] returned nothing. *)
Definition num_shards (file_size : Z) (shard_size : option Z) : res Z :=
  match shard_size with
  | None => Raise (Exn TypeError
      ["float() argument must be a string or a number"])
  | Some sz =>
      let? d := PyFloat.float_of_int sz in
      let? q := PyFloat.int_truediv file_size d in
      PyFloat.int_ceil q
  end.

(** The [for] loop of [calculate_shards]: [n] iterations from the
    current [start] and [end]. *)
Fixpoint shard_loop (n : nat) (start end_ shard_size : Z)
  : list (Z * Z) :=
  match n with
  | O => []
  | S n' => (start, end_) :: shard_loop n' end_ (end_ + shard_size) shard_size
  end.

(** What [calculate_shards] does once the size of the file is known:
    the count and the loop. *)
Definition plan_shards (file_size : Z) (shard_size : option Z)
  : res (list (Z * Z)) :=
  let? n := num_shards file_size shard_size in
  let size := match shard_size with Some sz => sz | None => 0 end in
  Ok (shard_loop (Z.to_nat n) 0 size size).

(** [calculate_shards(args, shard_size, filepath)] *)
Definition calculate_shards (a : args) (shard_size : option Z)
                            (filepath : string) : M (list (Z * Z)) :=
  let* file_size := Os.getsize filepath in
  lift (plan_shards file_size shard_size).

(** [check_and_get_dest(dest)] *)
Definition check_and_get_dest (dest : option string)
  : M (string * string) :=
  let no_dest :=
    let* path := get (fun w => Os.abspath w (Os.getcwd w)) in
    let* fname := get uuid4_hex in
    ret (path, fname) in
  match dest with
  | Some d =>
      if negb (String.eqb d "") then
        try_except
          (let* ex := get (fun w => Os.exists_ w d) in py_assert (negb ex))
          AssertionError
          (raise FileError [d ++ " already exists"]) ;;
        let '(path0, fname) := Os.split d in
        let* path :=
          if String.eqb path0 "" then
            get (fun w => Os.abspath w (Os.getcwd w))
          else ret path0 in
        try_except
          (let* isd := get (fun w => Os.isdir w path) in py_assert isd)
          AssertionError
          (raise FileError [path ++ " is not a valid path"]) ;;
        ret (path, fname)
      else no_dest
  | None => no_dest
  end.

Section Commands.

(** [Chunk().from_json(text)] and [Shard().from_uri(uri)], from the
    missing [upstream/chunk.py] and [upstream/shard.py]. *)
Variable from_json : string -> res Streamer.Chunk.
Variable from_uri : string -> res Streamer.Chunk.

(** One iteration of the loop of [upload]: the call of
    [streamer.upload] with the keywords [start_pos], [shard_size] and
    [callback], then [callback.bar.finish()].  The handler of
    [ResponseError], which reads [e.response] and raises the exception
    again, is not entered: the keywords make the call raise
    [TypeError].  [Streamer.upload] never calls the callback, so
    [callback.bar] is still [None] after the call. *)
Definition upload_shard (streamer : Streamer.t) (a : args)
                        (shard : Z * Z) : M string :=
  lift (Streamer.bind_keywords "upload" Streamer.upload_params
          ["start_pos"; "shard_size"; "callback"]) ;;
  Streamer.upload from_json streamer (a_file a) ;;
  raise AttributeError ["'NoneType' object has no attribute 'finish'"].

Fixpoint upload_loop (streamer : Streamer.t) (a : args)
                     (shards : list (Z * Z)) : M (list string) :=
  match shards with
  | [] => ret []
  | shard :: rest =>
      let* u := upload_shard streamer a shard in
      let* us := upload_loop streamer a rest in
      ret (u :: us)
  end.

(** [upload(args)]; the result is [shard_info].  [Streamer] has no
    attribute [check_path], so the call of it is never made. *)
Definition upload (a : args) : M (list string) :=
  let* shard_size := lift (parse_shard_size (a_shard_size a)) in
  let* filepath :=
    try_except
      (lift (Streamer.getattr "check_path") ;; ret (a_file a))
      FileError
      (raise SystemExit ["1"]) in
  let* streamer := Streamer.init (a_server a) in
  let* shards := calculate_shards a shard_size filepath in
  upload_loop streamer a shards.

(** The first loop of [download]: one shard for each URI. *)
Fixpoint parse_uris (uris : list string) : res (list Streamer.Chunk) :=
  match uris with
  | [] => Ok []
  | u :: rest =>
      let? shard := from_uri u in
      let? shards := parse_uris rest in
      Ok (shard :: shards)
  end.

(** One iteration of the second loop of [download]: the call of
    [streamer.download] with the keyword [slicesize], then the
    append of [r.iter_content()] to [savepath].  The value that
    [Streamer.download] returns is [True] or [None], neither of which
    has an [iter_content]. *)
Definition download_shard (streamer : Streamer.t) (savepath : string)
                          (shard : Streamer.Chunk) : M unit :=
  lift (Streamer.bind_keywords "download" Streamer.download_params
          ["slicesize"]) ;;
  let* r := Streamer.download streamer shard None 1024 in
  let* f := Os.open_write savepath Os.ab in
  raise AttributeError
    [match r with
     | Streamer.ReturnTrue => "'bool'"
     | Streamer.ReturnNone => "'NoneType'"
     end ++ " object has no attribute 'iter_content'"].

(** [download(args)]; the result is [fname]. *)
Definition download (a : args) : M string :=
  let* shards := lift (parse_uris (a_uri a)) in
  let* streamer := Streamer.init (a_server a) in
  let* '(path, fname) := check_and_get_dest (a_dest a) in
  let savepath := Os.join path fname in
  for_each shards (download_shard streamer savepath) ;;
  ret fname.

End Commands.

End Clitool.

(** ** Notions the properties are stated with *)

Module Props.

(** [ceil(a / b)] over the integers, for [b > 0] *)
Definition cdiv (a b : Z) : Z := - ((- a) / b).

(** A byte range with its end clamped to the size of the file *)
Definition clamp (file_size : Z) (r : Z * Z) : Z * Z :=
  (fst r, Z.min (snd r) file_size).

Definition range_len (r : Z * Z) : Z := snd r - fst r.

(** The sum of the lengths of the clamped ranges *)
Definition clamped_total (file_size : Z) (l : list (Z * Z)) : Z :=
  fold_right Z.add 0 (map (fun r => range_len (clamp file_size r)) l).

(** Contiguous from [start]: every range begins where the one before it
    ended, and is not empty. *)
Fixpoint contiguous_from (start : Z) (l : list (Z * Z)) : Prop :=
  match l with
  | [] => True
  | r :: rest => fst r = start /\ fst r < snd r /\ contiguous_from (snd r) rest
  end.

(** Ascending and without overlap: a range ends before any later one
    begins. *)
Fixpoint separated (l : list (Z * Z)) : Prop :=
  match l with
  | [] => True
  | r :: rest =>
      Forall (fun r' => snd r <= fst r' /\ fst r < fst r') rest
      /\ separated rest
  end.

(** The slice [data[start : start + size]], which stops at the end of
    the data *)
Definition slice (data : list byte) (start size : Z) : list byte :=
  firstn (Z.to_nat size) (skipn (Z.to_nat start) data).

(** Whether [s] occurs in one of the arguments of the exception *)
Definition mentions (e : exn) (s : string) : bool :=
  existsb (fun a => match String.index 0 s a with
                    | Some _ => true
                    | None => false
                    end) (exn_args e).

(** The request of [Streamer.download] and the server's answer to it in
    the world [w] *)
Definition download_request (self : Streamer.t) (chunk : Streamer.Chunk)
  : request :=
  Request GET (Streamer.server self ++ "/api/download/"
                 ++ Streamer.uri chunk) [].

Definition download_response (self : Streamer.t) (chunk : Streamer.Chunk)
                             (w : world) : response :=
  remote w (wire w) (download_request self chunk).

(** The directory that [Streamer.download] checks for a destination
    [d] *)
Definition dest_dir (w : world) (d : string) : string :=
  match fst (Os.split d) with
  | EmptyString => Os.abspath w (Os.getcwd w)
  | p => p
  end.

(** The checks that [Streamer.download] makes before it sends anything,
    as one function of the world: the exception they end in, or the
    path to save to. *)
Definition download_checks (chunk : Streamer.Chunk) (dest : option string)
                           (w : world) : res string :=
  if String.eqb (Streamer.filehash chunk) "" then Raise (Exn ChunkError [])
  else match dest with
       | Some (String c r as d) =>
           if Os.exists_ w d then
             Raise (Exn FileError [d ++ " already exists"])
           else if Os.isdir w (dest_dir w d) then
             Ok (Os.join (dest_dir w d) (snd (Os.split d)))
           else Raise (Exn FileError [dest_dir w d ++ " is not a valid path"])
       | _ => Raise (Exn AttributeError
                       ["'module' object has no attribute 'abspath'"])
       end.

(** What [Streamer.download] does after the checks: the request, and
    the write when the answer is [200]. *)
Definition download_transfer (self : Streamer.t) (chunk : Streamer.Chunk)
                             (savepath : string) (chunksize : Z)
  : M Streamer.download_result :=
  let* resp := Streamer.send (download_request self chunk) in
  if Z.eqb (status_code resp) 200 then
    let* f := Os.open_write savepath Os.wb in
    for_each (Streamer.iter_content resp chunksize) (Os.write f) ;;
    ret Streamer.ReturnTrue
  else ret Streamer.ReturnNone.

(** The position of an exact quotient between its floor and the next
    integer, from the remainder [rem] of the division by [den] *)
Definition loc_of (rem den : Z) : location :=
  if Z.eqb rem 0 then loc_Exact else loc_Inexact (Z.compare (2 * rem) den).

(** [num / den] rounded to the nearest integer, ties to even *)
Definition rne (num den : Z) : Z :=
  let q := num / den in
  match Z.compare (2 * (num mod den)) den with
  | Lt => q
  | Eq => if Z.even q then q else q + 1
  | Gt => q + 1
  end.

(** The ceiling of [m * 2 ^ e] *)
Definition ceil_scaled (m e : Z) : Z :=
  match e with
  | Z.neg k => - ((- m) / 2 ^ Z.pos k)
  | _ => m * 2 ^ e
  end.

End Props.
Import Props.

(** ** A small world to run the code in *)

Module Demo.

Definition bytes (s : string) : list byte := list_byte_of_string s.

(** [/], [/tmp], [/data] and the six-byte file [/data/f] *)
Definition files : gmap (list string) node :=
  <[ ["data"; "f"] := File (bytes "abcdef") ]>
    (<[ ["data"] := Dir 4096 ]>
       (<[ ["tmp"] := Dir 4096 ]> (<[ [] := Dir 4096 ]> ∅))).

Definition world_with (srv : list request -> request -> response)
  : world :=
  World files [] "/root" (fun _ => None) "5f0c2a" (fun _ => None) srv [].

(** A server that gives the same answer to every request *)
Definition always (code : Z) (why body : string)
  : list request -> request -> response :=
  fun _ _ => Response code why (bytes body) body.

(** A server that holds the two halves of ["abcd"] as the shards [h1]
    and [h2], and stores what is uploaded under [h3]. *)
Definition store : list request -> request -> response :=
  fun _ rq =>
    match rq_method rq with
    | POST => Response 201 "CREATED" (bytes "h3") "h3"
    | GET =>
        if String.eqb (rq_url rq) "http://node/api/download/h1"
        then Response 200 "OK" (bytes "ab") "ab"
        else if String.eqb (rq_url rq) "http://node/api/download/h2"
        then Response 200 "OK" (bytes "cd") "cd"
        else Response 404 "NOT FOUND" (bytes "") ""
    end.

Definition node1 : Streamer.t := {| Streamer.server := "http://node" |}.

(** The shard that a URI or a JSON body names *)
Definition shard_of (h : string) : res Streamer.Chunk :=
  Ok {| Streamer.filehash := h; Streamer.decryptkey := "";
        Streamer.filename := ""; Streamer.uri := h |}.

Definition shard (h : string) : Streamer.Chunk :=
  {| Streamer.filehash := h; Streamer.decryptkey := "";
     Streamer.filename := ""; Streamer.uri := h |}.

Definition cli (file : string) (size : Clitool.size_arg)
               (uris : list string) (dest : option string)
  : Clitool.args :=
  {| Clitool.a_server := "http://node"; Clitool.a_verbose := false;
     Clitool.a_file := file; Clitool.a_shard_size := size;
     Clitool.a_uri := uris; Clitool.a_dest := dest |}.

End Demo.

(** * Properties *)

(** ** Stepping through effectful code *)

Ltac step_monad :=
  unfold bind, try_except, py_assert, get, ret, raise, lift,
    Os.os_abspath, Streamer.send; simpl.

Lemma eqb_empty_false (s : string) : s <> "" -> String.eqb s "" = false.
Proof. intros H. apply String.eqb_neq. exact H. Qed.

Lemma for_each_write_ok (k : list string) (l : list (list byte)) (w : world) :
  fst (for_each l (Os.write k) w) = Ok tt
  /\ wire (snd (for_each l (Os.write k) w)) = wire w.
Proof.
  revert w. induction l as [|x l IH]; intros w; simpl.
  - split; reflexivity.
  - unfold bind, Os.write; simpl.
    destruct (IH (set_fs (<[k:=File
      (match fs w !! k with Some (File d) => d | _ => [] end ++ x)]> (fs w)) w))
      as [H1 H2].
    split; [exact H1 | exact H2].
Qed.

Lemma download_unfold self chunk dest chunksize w :
  Streamer.download self chunk dest chunksize w =
  match download_checks chunk dest w with
  | Ok savepath => download_transfer self chunk savepath chunksize w
  | Raise e => (Raise e, w)
  end.
Proof.
  unfold Streamer.download, download_checks, download_transfer, dest_dir,
    download_request.
  step_monad.
  destruct (String.eqb (Streamer.filehash chunk) ""); simpl; [reflexivity|].
  destruct dest as [[|c r]|]; simpl; try reflexivity.
  destruct (Os.exists_ w (String c r)); simpl; [reflexivity|].
  destruct (Os.split (String c r)) as [p fname]; simpl.
  destruct p as [|c' p']; simpl.
  - destruct (Os.isdir w _); reflexivity.
  - destruct (Os.isdir w _); reflexivity.
Qed.

Lemma download_transfer_non_200 self chunk savepath cs w :
  status_code (download_response self chunk w) <> 200 ->
  download_transfer self chunk savepath cs w =
  (Ok Streamer.ReturnNone,
   set_wire (wire w ++ [download_request self chunk]) w).
Proof.
  intros H. unfold download_transfer, download_response in *. step_monad.
  destruct (Z.eqb_spec (status_code (remote w (wire w)
              (download_request self chunk))) 200) as [E|E];
    [contradiction | reflexivity].
Qed.

Lemma open_write_class p mode w e w' :
  Os.open_write p mode w = (Raise e, w') -> exn_class e = IOError /\ w' = w.
Proof.
  unfold Os.open_write.
  destruct (Os.resolve w p) as [k|]; [|intros [= <- <-]; split; reflexivity].
  destruct (fs w !! k) as [[n|d]|], mode; intros [= ]; subst;
    split; reflexivity.
Qed.

Lemma download_transfer_cases self chunk savepath cs w :
  let out := download_transfer self chunk savepath cs w in
  (fst out = Ok Streamer.ReturnTrue
   /\ status_code (download_response self chunk w) = 200)
  \/ (fst out = Ok Streamer.ReturnNone
      /\ status_code (download_response self chunk w) <> 200)
  \/ (exists e, fst out = Raise e /\ exn_class e = IOError).
Proof.
  unfold download_transfer, download_response. step_monad.
  destruct (Z.eqb_spec (status_code (remote w (wire w)
              (download_request self chunk))) 200) as [E|E].
  - destruct (Os.open_write savepath Os.wb _) as [[k|e] w1] eqn:Ho.
    + left. split; [|exact E].
      destruct (for_each_write_ok k
        (Streamer.iter_content (remote w (wire w)
           (download_request self chunk)) cs) w1) as [Hf _].
      destruct (for_each _ _ w1) as [[[]|e] w2]; simpl in *;
        [reflexivity | discriminate].
    + right; right. exists e. split; [reflexivity|].
      eapply open_write_class; exact Ho.
  - right; left. split; [reflexivity | exact E].
Qed.

(** C9. [Streamer.download] called without a destination, for a chunk
    whose [filehash] is not empty, raises [AttributeError] (the name
    [os.abspath] does not exist) and leaves the world as it was: no
    request has been sent and no file written.  The default destination
    is never computed. *)
Theorem download_without_dest_raises (self : Streamer.t)
    (chunk : Streamer.Chunk) (chunksize : Z) (w : world) :
  Streamer.filehash chunk <> "" ->
  let out := Streamer.download self chunk None chunksize w in
  raises (fst out) AttributeError /\ snd out = w.
Proof.
  intros H out. subst out. rewrite download_unfold. unfold download_checks.
  rewrite (eqb_empty_false _ H). split; [eexists|]; reflexivity.
Qed.

Lemma download_without_dest_raises_witness :
  let out := Streamer.download Demo.node1 (Demo.shard "h1") None 1024
               (Demo.world_with Demo.store) in
  raises (fst out) AttributeError /\ snd out = Demo.world_with Demo.store.
Proof. apply download_without_dest_raises. simpl. discriminate. Defined.

(** C10. When the server's answer to the GET of [Streamer.download] has
    a status other than 200, the file system after the call is the file
    system before it: the destination is neither created nor written. *)
Theorem download_non_200_keeps_files (self : Streamer.t)
    (chunk : Streamer.Chunk) (dest : option string) (chunksize : Z)
    (w : world) :
  status_code (download_response self chunk w) <> 200 ->
  fs (snd (Streamer.download self chunk dest chunksize w)) = fs w.
Proof.
  intros H. rewrite download_unfold.
  destruct (download_checks chunk dest w) as [savepath|e]; [|reflexivity].
  rewrite (download_transfer_non_200 _ _ _ _ _ H). reflexivity.
Qed.

Lemma download_non_200_keeps_files_witness :
  fs (snd (Streamer.download Demo.node1 (Demo.shard "h1") (Some "/tmp/out")
             1024 (Demo.world_with (Demo.always 404 "NOT FOUND" "gone")))) =
  Demo.files.
Proof.
  apply (download_non_200_keeps_files Demo.node1 (Demo.shard "h1")
           (Some "/tmp/out") 1024
           (Demo.world_with (Demo.always 404 "NOT FOUND" "gone"))).
  simpl. lia.
Defined.

(** ** Strings *)

Lemma unsnoc_app_char (a : string) (c : ascii) :
  Str.unsnoc (a ++ String c "") = Some (a, c).
Proof.
  induction a as [|x a IH]; simpl; [reflexivity|].
  rewrite IH. reflexivity.
Qed.

Lemma unsnoc_cons_some (c : ascii) (s : string) :
  exists i l, Str.unsnoc (String c s) = Some (i, l).
Proof.
  revert c. induction s as [|y s IH]; intros c; simpl.
  - eauto.
  - destruct (IH y) as (i & l & E). simpl in E. rewrite E. eauto.
Qed.

Lemma last_char_app (a b : string) :
  b <> "" -> Str.last_char (a ++ b) = Str.last_char b.
Proof.
  intros Hb. destruct b as [|c b]; [contradiction|]. clear Hb.
  unfold Str.last_char.
  induction a as [|x a IH]; [reflexivity|].
  change (String x a ++ String c b) with (String x (a ++ String c b)).
  destruct (unsnoc_cons_some c b) as (i & l & E).
  rewrite E in IH.
  cbn [Str.unsnoc] in *.
  destruct (a ++ String c b) as [|y r] eqn:Er.
  - destruct a; discriminate.
  - fold (Str.unsnoc (String y r)) in *.
    destruct (Str.unsnoc (String y r)) as [[i' l']|]; [|discriminate].
    rewrite E. exact IH.
Qed.

Lemma dest_messages_differ (d p : string) :
  d ++ " already exists" <> p ++ " is not a valid path".
Proof.
  intros E. apply (f_equal Str.last_char) in E.
  rewrite !last_char_app in E by discriminate.
  vm_compute in E. discriminate.
Qed.

(** ** [Streamer.download]: the destination and the status *)

(** C7. For a chunk with a [filehash] and a destination [d] that is
    given: when [d] exists, and when it does not but its directory is
    not a directory, [Streamer.download] raises [FileError], with a
    message that tells the two cases apart, and the world is unchanged;
    so no request was sent. *)
Theorem download_rejects_destination (self : Streamer.t)
    (chunk : Streamer.Chunk) (d : string) (chunksize : Z) (w : world) :
  Streamer.filehash chunk <> "" ->
  d <> "" ->
  let out := Streamer.download self chunk (Some d) chunksize w in
  (Os.exists_ w d = true ->
   out = (Raise (Exn FileError [d ++ " already exists"]), w))
  /\ (Os.exists_ w d = false ->
      Os.isdir w (dest_dir w d) = false ->
      out = (Raise (Exn FileError [dest_dir w d ++ " is not a valid path"]),
             w))
  /\ d ++ " already exists" <> dest_dir w d ++ " is not a valid path".
Proof.
  intros Hh Hd out. subst out. rewrite download_unfold.
  unfold download_checks. rewrite (eqb_empty_false _ Hh).
  destruct d as [|c r]; [contradiction|].
  split; [|split].
  - intros ->. reflexivity.
  - intros -> ->. reflexivity.
  - apply dest_messages_differ.
Qed.

Lemma download_rejects_destination_witness :
  let w := Demo.world_with Demo.store in
  Streamer.download Demo.node1 (Demo.shard "h1") (Some "/data/f") 1024 w =
    (Raise (Exn FileError ["/data/f already exists"]), w)
  /\ Streamer.download Demo.node1 (Demo.shard "h1") (Some "/nodir/f") 1024 w =
    (Raise (Exn FileError ["/nodir is not a valid path"]), w).
Proof.
  intros w. split.
  - apply (download_rejects_destination Demo.node1 (Demo.shard "h1")
             "/data/f" 1024 w); [simpl; discriminate | discriminate
                                | vm_compute; reflexivity].
  - apply (download_rejects_destination Demo.node1 (Demo.shard "h1")
             "/nodir/f" 1024 w); [simpl; discriminate | discriminate
                | vm_compute; reflexivity | vm_compute; reflexivity].
Defined.

(** C4, the claim as stated fails: with the answer [404] to the GET,
    [Streamer.download] returns [None]; it raises nothing, and no
    [ResponseError] in particular. *)
Lemma download_404_returns_None :
  let w := Demo.world_with (Demo.always 404 "NOT FOUND" "gone") in
  let out := Streamer.download Demo.node1 (Demo.shard "h1")
               (Some "/tmp/out") 1024 w in
  status_code (download_response Demo.node1 (Demo.shard "h1") w) = 404
  /\ wire (snd out) = [download_request Demo.node1 (Demo.shard "h1")]
  /\ fst out = Ok Streamer.ReturnNone
  /\ ~ signals (fst out) "ResponseError".
Proof.
  vm_compute. repeat split.
  intros (e & He & _). discriminate He.
Qed.

(** C4, amended. [Streamer.download] returns [True] only when the
    status of the answer is 200.  When the checks pass and the answer
    has another status, it returns [None] after the one request, without
    raising; and no call of it raises [ResponseError]. *)
Theorem download_result_by_status (self : Streamer.t)
    (chunk : Streamer.Chunk) (dest : option string) (chunksize : Z)
    (w : world) :
  let out := Streamer.download self chunk dest chunksize w in
  (fst out = Ok Streamer.ReturnTrue ->
   status_code (download_response self chunk w) = 200)
  /\ (forall savepath,
        download_checks chunk dest w = Ok savepath ->
        status_code (download_response self chunk w) <> 200 ->
        out = (Ok Streamer.ReturnNone,
               set_wire (wire w ++ [download_request self chunk]) w))
  /\ ~ raises (fst out) ResponseError.
Proof.
  intros out. subst out. rewrite download_unfold.
  split; [|split].
  - destruct (download_checks chunk dest w) as [savepath|e];
      [|discriminate].
    destruct (download_transfer_cases self chunk savepath chunksize w)
      as [[_ H]|[[H _]|(e & H & _)]]; [intros _; exact H | |];
      rewrite H; discriminate.
  - intros savepath -> H. apply download_transfer_non_200. exact H.
  - intros (args & H).
    destruct (download_checks chunk dest w) as [savepath|e] eqn:Hc.
    + destruct (download_transfer_cases self chunk savepath chunksize w)
        as [[H1 _]|[[H1 _]|(e & H1 & Hcls)]]; rewrite H1 in H;
        try discriminate.
      injection H as ->. discriminate Hcls.
    + simpl in H. injection H as ->. unfold download_checks in Hc.
      destruct (String.eqb (Streamer.filehash chunk) ""); [discriminate|].
      destruct dest as [[|c r]|]; try discriminate.
      destruct (Os.exists_ w (String c r)); [discriminate|].
      destruct (Os.isdir w _); discriminate.
Qed.

Lemma download_result_by_status_witness :
  let w := Demo.world_with (Demo.always 404 "NOT FOUND" "gone") in
  let w' := Demo.world_with Demo.store in
  Streamer.download Demo.node1 (Demo.shard "h1") (Some "/tmp/out") 1024 w =
  (Ok Streamer.ReturnNone,
   set_wire [download_request Demo.node1 (Demo.shard "h1")] w)
  /\ status_code (download_response Demo.node1 (Demo.shard "h1") w') = 200.
Proof.
  intros w w'. split.
  - apply (proj1 (proj2 (download_result_by_status Demo.node1
             (Demo.shard "h1") (Some "/tmp/out") 1024 w)) "/tmp/out").
    + vm_compute. reflexivity.
    + simpl. lia.
  - apply (proj1 (download_result_by_status Demo.node1
             (Demo.shard "h1") (Some "/tmp/out") 1024 w')).
    vm_compute. reflexivity.
Defined.

(** ** [Streamer.upload]: the status of the answer *)

(** C5. [Streamer.upload] makes its [ResponseError] from a message and
    nothing else, while the handler of [clitool.upload] reads
    [e.response.status_code], [e.response.reason] and [e.response.text]
    of it.  For the answer [500] with the body ["disk full"] the
    exception has the one argument ["Server error."]: neither the
    status nor the body is in it.  For a status that the code does not
    list, the message has the status and the reason, and not the
    body. *)
Theorem upload_500_drops_status_and_body :
  let w500 := Demo.world_with
                (Demo.always 500 "INTERNAL SERVER ERROR" "disk full") in
  let w418 := Demo.world_with (Demo.always 418 "TEAPOT" "disk full") in
  let e500 := Exn ResponseError ["Server error."] in
  let e418 := Exn ResponseError ["Received status code 418 TEAPOT"] in
  fst (Streamer.upload Demo.shard_of Demo.node1 "/data/f" w500) = Raise e500
  /\ mentions e500 "500" = false
  /\ mentions e500 "disk full" = false
  /\ fst (Streamer.upload Demo.shard_of Demo.node1 "/data/f" w418) = Raise e418
  /\ mentions e418 "disk full" = false.
Proof. vm_compute. repeat split. Qed.

(** What [Streamer.upload] does with every answer [r] to its POST: 201
    gives the chunk parsed from the text of the body; 402, 404 and 500
    raise [ResponseError] with the fixed messages ["Payment
    required."], ["API call not found."] and ["Server error."]; any
    other status raises [ResponseError] with the message ["Received
    status code <status> <reason>"].  The exception is made from the
    message alone in every case. *)
Lemma upload_result_by_status (from_json : string -> res Streamer.Chunk)
    (self : Streamer.t) (filepath : string) (w w' : world) (r : response) :
  Streamer._upload_form_encoded self
    (Streamer.server self ++ "/api/upload") filepath w = (Ok r, w') ->
  Streamer.upload from_json self filepath w =
  (match status_code r with
   | 201 => from_json (text r)
   | 402 => Raise (Exn ResponseError ["Payment required."])
   | 404 => Raise (Exn ResponseError ["API call not found."])
   | 500 => Raise (Exn ResponseError ["Server error."])
   | code => Raise (Exn ResponseError
               ["Received status code " ++ str_of_int code ++ " "
                  ++ reason r])
   end, w').
Proof.
  intros H. unfold Streamer.upload. unfold bind at 1. rewrite H.
  destruct (Z.eqb_spec (status_code r) 404) as [->|H404]; [reflexivity|].
  destruct (Z.eqb_spec (status_code r) 402) as [->|H402]; [reflexivity|].
  destruct (Z.eqb_spec (status_code r) 500) as [->|H500]; [reflexivity|].
  destruct (Z.eqb_spec (status_code r) 201) as [->|H201]; [reflexivity|].
  unfold raise.
  destruct (status_code r) as [|p|p]; try reflexivity.
  repeat (destruct p as [p|p|]; try reflexivity); contradiction.
Qed.

Lemma upload_result_by_status_at_201 :
  Streamer.upload Demo.shard_of Demo.node1 "/data/f"
    (Demo.world_with Demo.store) =
  (Demo.shard_of "h3",
   set_wire [Request POST "http://node/api/upload"
               [Part "file" "testfile" (Demo.bytes "abcdef")]]
            (Demo.world_with Demo.store)).
Proof.
  apply (upload_result_by_status Demo.shard_of Demo.node1 "/data/f"
           (Demo.world_with Demo.store) _
           (Response 201 "CREATED" (Demo.bytes "h3") "h3")).
  vm_compute. reflexivity.
Defined.

(** ** [parse_shard_size] *)

Lemma all_digits_app_char (a : string) (c : ascii) :
  Str.is_digit c = false -> Str.all_digits (a ++ String c "") = false.
Proof.
  intros Hc. induction a as [|x a IH]; simpl.
  - rewrite Hc. reflexivity.
  - rewrite IH. apply andb_false_r.
Qed.

Lemma isdigit_app_char (a : string) (c : ascii) :
  Str.is_digit c = false -> Str.isdigit (a ++ String c "") = false.
Proof.
  intros Hc. unfold Str.isdigit.
  destruct (a ++ String c "") eqn:E; [reflexivity|].
  rewrite <- E. apply all_digits_app_char. exact Hc.
Qed.

(** C6, the claim as stated fails: ["100x"] is parsed to [None], the
    value of the bare [return]; nothing is raised, and no
    [InvalidSizeFormat] in particular. *)
Lemma parse_100x_returns_None :
  Clitool.parse_shard_size (Clitool.SizeStr "100x") = Ok None
  /\ ~ signals (Clitool.parse_shard_size (Clitool.SizeStr "100x"))
         "InvalidSizeFormat".
Proof.
  split; [reflexivity|].
  intros (e & He & _). discriminate He.
Qed.

(** C6, amended. For a string whose last character is neither a decimal
    digit nor, in either case, one of [b], [k] and [m],
    [parse_shard_size] returns [None] and raises nothing. *)
Theorem parse_unknown_suffix_returns_None (number : string) (c : ascii) :
  Str.is_digit c = false ->
  existsb (Ascii.eqb (Str.lower c)) ["b"; "k"; "m"]%char = false ->
  Clitool.parse_shard_size (Clitool.SizeStr (number ++ String c "")) =
  Ok None.
Proof.
  intros Hd Hs. unfold Clitool.parse_shard_size. simpl Clitool.str.
  rewrite (isdigit_app_char _ _ Hd), unsnoc_app_char.
  cbv zeta. rewrite Hs. reflexivity.
Qed.

Lemma parse_unknown_suffix_returns_None_witness :
  Clitool.parse_shard_size (Clitool.SizeStr "100x") = Ok None.
Proof.
  apply (parse_unknown_suffix_returns_None "100" "x"); reflexivity.
Defined.

(** ** [calculate_shards] with a shard size of zero *)

Lemma float_of_int_class (n : Z) (e : exn) :
  PyFloat.float_of_int n = Raise e -> exn_class e = OverflowError.
Proof.
  unfold PyFloat.float_of_int.
  destruct (binary_normalize _ _ _ _ _); intros [= <-]; reflexivity.
Qed.

(** C8, the claim as stated fails: with a shard size of zero
    [calculate_shards] raises the [ZeroDivisionError] of the float
    division, not an [InvalidShardSize]. *)
Lemma zero_shard_size_raises_ZeroDivisionError :
  let out := Clitool.calculate_shards
               (Demo.cli "/data/f" (Clitool.SizeStr "0") [] None)
               (Some 0) "/data/f" (Demo.world_with Demo.store) in
  fst out = Raise (Exn ZeroDivisionError ["float division by zero"])
  /\ ~ signals (fst out) "InvalidShardSize".
Proof.
  vm_compute. split; [reflexivity|].
  intros (e & He & Hn). injection He as <-. discriminate Hn.
Qed.

Lemma plan_shards_zero (n : Z) :
  Clitool.plan_shards n (Some 0) =
    match PyFloat.float_of_int n with
    | Ok _ => Raise (Exn ZeroDivisionError ["float division by zero"])
    | Raise e => Raise e
    end
  /\ Clitool.num_shards n (Some 0) =
    match PyFloat.float_of_int n with
    | Ok _ => Raise (Exn ZeroDivisionError ["float division by zero"])
    | Raise e => Raise e
    end.
Proof.
  unfold Clitool.plan_shards, Clitool.num_shards.
  change (PyFloat.float_of_int 0) with (@Ok PyFloat.float (S754_zero false)).
  unfold PyFloat.int_truediv, rbind.
  destruct (PyFloat.float_of_int n); split; reflexivity.
Qed.

(** C8, amended. With a shard size of zero the count of shards is never
    obtained: [calculate_shards] raises, leaves the world unchanged and
    returns no list.  The exception is the [ZeroDivisionError] of the
    float division whenever the size of the file is known and converts
    to a float; otherwise it is the [OSError] of [getsize] or the
    [OverflowError] of the conversion. *)
Theorem zero_shard_size_never_planned (a : Clitool.args) (filepath : string)
    (w : world) :
  exists e,
    Clitool.calculate_shards a (Some 0) filepath w = (Raise e, w)
    /\ (forall n x,
          Os.getsize filepath w = (Ok n, w) ->
          PyFloat.float_of_int n = Ok x ->
          Clitool.num_shards n (Some 0) = Raise e
          /\ e = Exn ZeroDivisionError ["float division by zero"])
    /\ (exn_class e = ZeroDivisionError \/ exn_class e = OSError
        \/ exn_class e = OverflowError).
Proof.
  unfold Clitool.calculate_shards, Os.getsize. unfold bind, lift.
  destruct (Os.stat w filepath) as [[n|d]|].
  - destruct (plan_shards_zero n) as [-> Hnum].
    destruct (PyFloat.float_of_int n) as [x|e] eqn:Hn.
    + eexists. split; [reflexivity|]. split; [|left; reflexivity].
      intros n' x' [= <-] Hx'. rewrite Hnum. split; reflexivity.
    + exists e. split; [reflexivity|]. split.
      * intros n' x' [= <-] Hx'. rewrite Hx' in Hn. discriminate.
      * right; right. eapply float_of_int_class; exact Hn.
  - destruct (plan_shards_zero (Z.of_nat (length d))) as [-> Hnum].
    destruct (PyFloat.float_of_int (Z.of_nat (length d))) as [x|e] eqn:Hn.
    + eexists. split; [reflexivity|]. split; [|left; reflexivity].
      intros n' x' [= <-] Hx'. rewrite Hnum. split; reflexivity.
    + exists e. split; [reflexivity|]. split.
      * intros n' x' [= <-] Hx'. rewrite Hx' in Hn. discriminate.
      * right; right. eapply float_of_int_class; exact Hn.
  - eexists. split; [reflexivity|]. split.
    + intros n x [=].
    + right; left. reflexivity.
Qed.

Lemma zero_shard_size_never_planned_witness :
  Clitool.num_shards 6 (Some 0) =
  Raise (Exn ZeroDivisionError ["float division by zero"]).
Proof.
  destruct (zero_shard_size_never_planned
              (Demo.cli "/data/f" (Clitool.SizeStr "0") [] None)
              "/data/f" (Demo.world_with Demo.store)) as (e & _ & H & _).
  destruct (H 6 (S754_finite false 6755399441055744 (-50))) as [Hn He];
    [vm_compute; reflexivity | vm_compute; reflexivity |].
  rewrite Hn, He. reflexivity.
Defined.

(** ** The ranges of [calculate_shards] *)

Lemma shard_loop_length (n : nat) (s e sz : Z) :
  length (Clitool.shard_loop n s e sz) = n.
Proof.
  revert s e. induction n as [|n IH]; intros s e; simpl;
    [reflexivity | rewrite IH; reflexivity].
Qed.

Lemma shard_loop_contiguous (n : nat) (s sz : Z) :
  0 < sz -> contiguous_from s (Clitool.shard_loop n s (s + sz) sz).
Proof.
  intros Hsz. revert s. induction n as [|n IH]; intros s; simpl;
    [exact I|].
  repeat split; [lia | apply IH].
Qed.

Lemma shard_loop_starts (n : nat) (s sz lo : Z) :
  0 < sz -> lo <= s ->
  Forall (fun r => lo <= fst r /\ lo - sz < fst r)
         (Clitool.shard_loop n s (s + sz) sz).
Proof.
  intros Hsz. revert s. induction n as [|n IH]; intros s Hlo; simpl;
    constructor.
  - simpl. lia.
  - apply IH. lia.
Qed.

Lemma shard_loop_separated (n : nat) (s sz : Z) :
  0 < sz -> separated (Clitool.shard_loop n s (s + sz) sz).
Proof.
  intros Hsz. revert s. induction n as [|n IH]; intros s; simpl;
    [exact I|].
  split; [|apply IH].
  eapply Forall_impl;
    [apply (shard_loop_starts n (s + sz) sz (s + sz)); lia|].
  intros [a b]; simpl. lia.
Qed.

Lemma shard_loop_clamped_total (n : nat) (s sz F : Z) :
  0 < sz ->
  s + Z.of_nat n * sz < F + sz -> F <= s + Z.of_nat n * sz -> s <= F ->
  clamped_total F (Clitool.shard_loop n s (s + sz) sz) = F - s.
Proof.
  intros Hsz. revert s. unfold clamped_total.
  induction n as [|n IH]; intros s Hlo Hhi Hs; simpl.
  - lia.
  - unfold range_len, clamp at 1; simpl fst; simpl snd.
    destruct n as [|n].
    + simpl. lia.
    + rewrite IH by lia. lia.
Qed.

Lemma cdiv_bounds (a b : Z) :
  0 < b -> (cdiv a b - 1) * b < a <= cdiv a b * b.
Proof.
  intros Hb. unfold cdiv.
  pose proof (Z.div_mod (- a) b ltac:(lia)).
  pose proof (Z.mod_pos_bound (- a) b Hb).
  nia.
Qed.

(** Whenever the float computation of the count gives the ceiling of
    [file_size / shard_size], the ranges are as many, they are
    contiguous from 0, ascending and without overlap, and the clamped
    lengths add up to the size of the file. *)
Lemma plan_shards_with_exact_count (file_size shard_size : Z) :
  0 < file_size -> 0 < shard_size ->
  Clitool.num_shards file_size (Some shard_size) =
    Ok (cdiv file_size shard_size) ->
  exists l,
    Clitool.plan_shards file_size (Some shard_size) = Ok l
    /\ Z.of_nat (length l) = cdiv file_size shard_size
    /\ contiguous_from 0 l
    /\ separated l
    /\ clamped_total file_size l = file_size.
Proof.
  intros Hf Hs Hn. unfold Clitool.plan_shards. rewrite Hn. simpl.
  pose proof (cdiv_bounds file_size shard_size Hs) as Hb.
  assert (Hc : 0 < cdiv file_size shard_size) by nia.
  eexists. split; [reflexivity|].
  rewrite shard_loop_length.
  split; [lia|].
  split; [apply (shard_loop_contiguous _ 0 shard_size Hs)|].
  split; [apply (shard_loop_separated _ 0 shard_size Hs)|].
  rewrite (shard_loop_clamped_total _ 0 shard_size file_size Hs); lia.
Qed.

(** C3. At a file of [2^53 + 1] bytes and a shard size of [2^52] the
    float division gives [2.0]: [calculate_shards] plans two ranges
    where the ceiling is three, and the clamped ranges cover [2^53]
    bytes, one less than the file has. *)
Theorem plan_shards_short_at_2p53 :
  let file_size := 2 ^ 53 + 1 in
  let shard_size := 2 ^ 52 in
  Clitool.plan_shards file_size (Some shard_size) =
    Ok [(0, 2 ^ 52); (2 ^ 52, 2 ^ 53)]
  /\ cdiv file_size shard_size = 3
  /\ clamped_total file_size [(0, 2 ^ 52); (2 ^ 52, 2 ^ 53)]
     = file_size - 1.
Proof. vm_compute. repeat split. Qed.

(** ** Uploading a range, downloading into one file *)

(** What [Streamer.upload] posts for a file that is there: one part
    with all the bytes of the file. *)
Lemma upload_posts_whole_file (from_json : string -> res Streamer.Chunk)
    (self : Streamer.t) (filepath : string) (data : list byte) (w : world) :
  Os.stat w (Os.expanduser w filepath) = Some (File data) ->
  wire (snd (Streamer.upload from_json self filepath w)) =
  (wire w ++ [Request POST (Streamer.server self ++ "/api/upload")
                [Part "file" "testfile" data]])%list.
Proof.
  intros H.
  unfold Streamer.upload, Streamer._upload_form_encoded,
    Streamer._upload_check_path, Os.read_file, Os.isfile.
  step_monad. rewrite H. simpl. rewrite H. simpl.
  repeat match goal with
         | |- context [if ?b then _ else _] => destruct b; simpl
         end; try reflexivity.
Qed.

(** C2. For the six-byte file [/data/f], [Streamer.upload] posts all
    six bytes, where the slice of size 2 at offset 2 has two.  The call
    that [clitool.upload] makes, with an offset, a size and a callback,
    cannot be bound to the parameters of [Streamer.upload], and
    [clitool.upload] itself stops at [Streamer.check_path]. *)
Theorem upload_ignores_the_range :
  let w := Demo.world_with Demo.store in
  wire (snd (Streamer.upload Demo.shard_of Demo.node1 "/data/f" w)) =
    [Request POST "http://node/api/upload"
       [Part "file" "testfile" (Demo.bytes "abcdef")]]
  /\ slice (Demo.bytes "abcdef") 2 2 = Demo.bytes "cd"
  /\ raises (Streamer.bind_keywords "upload" Streamer.upload_params
               ["start_pos"; "shard_size"; "callback"]) TypeError
  /\ raises (fst (Clitool.upload Demo.shard_of
                    (Demo.cli "/data/f" (Clitool.SizeStr "2b") [] None) w))
            AttributeError.
Proof.
  vm_compute. repeat split; eexists; reflexivity.
Qed.

(** C1. The shards [h1] and [h2] hold the two halves of ["abcd"].
    [clitool.download] of both into [/tmp/out] raises [TypeError] at its
    first call of [streamer.download] and writes nothing.  Through
    [Streamer.download], the first shard is written, the second call is
    refused because the destination exists, and the file holds ["ab"]. *)
Theorem download_does_not_concatenate :
  let w := Demo.world_with Demo.store in
  let cli := Clitool.download Demo.shard_of
               (Demo.cli "" (Clitool.SizeInt 1024) ["h1"; "h2"]
                  (Some "/tmp/out")) w in
  let first := Streamer.download Demo.node1 (Demo.shard "h1")
                 (Some "/tmp/out") 1024 w in
  let second := Streamer.download Demo.node1 (Demo.shard "h2")
                  (Some "/tmp/out") 1024 (snd first) in
  raises (fst cli) TypeError
  /\ fs (snd cli) !! ["tmp"; "out"] = None
  /\ fst first = Ok Streamer.ReturnTrue
  /\ fst second = Raise (Exn FileError ["/tmp/out already exists"])
  /\ fs (snd second) !! ["tmp"; "out"] = Some (File (Demo.bytes "ab"))
  /\ Demo.bytes "ab" <> Demo.bytes "abcd".
Proof.
  vm_compute. repeat split; try discriminate. eexists; reflexivity.
Qed.


Lemma check_and_get_dest_reads_only (dest : option string) (w : world) :
  snd (Clitool.check_and_get_dest dest w) = w.
Proof.
  unfold Clitool.check_and_get_dest. step_monad.
  destruct dest as [[|c r]|]; simpl; try reflexivity.
  destruct (Os.exists_ w (String c r)); simpl; [reflexivity|].
  destruct (Os.split (String c r)) as [p fname]; simpl.
  destruct p as [|c' p']; simpl; destruct (Os.isdir w _); reflexivity.
Qed.

(** [clitool.download] of one URI or more never gets to its answer: it
    raises, and it leaves the file system as it was. *)
Lemma clitool_download_never_writes (from_uri : string -> res Streamer.Chunk)
    (a : Clitool.args) (w : world) :
  Clitool.a_uri a <> [] ->
  (exists e, fst (Clitool.download from_uri a w) = Raise e)
  /\ fs (snd (Clitool.download from_uri a w)) = fs w.
Proof.
  intros Hne. unfold Clitool.download.
  unfold bind at 1. unfold lift.
  destruct (Clitool.parse_uris from_uri (Clitool.a_uri a)) as [shards|e] eqn:Hp;
    [|split; [exists e|]; reflexivity].
  assert (Hs : shards <> []).
  { destruct (Clitool.a_uri a) as [|u us]; [contradiction|].
    simpl in Hp. unfold rbind in Hp.
    destruct (from_uri u); [|discriminate].
    destruct (Clitool.parse_uris from_uri us); [|discriminate].
    injection Hp as <-. discriminate. }
  destruct shards as [|sh shards]; [contradiction|].
  unfold bind at 1.
  unfold Streamer.init, Streamer.check_connectivity, Streamer.probe.
  step_monad.
  destruct (urlopen w (Clitool.a_server a)) as [e|]; simpl.
  { destruct (decide (exn_class e = URLError)); simpl;
      split; try reflexivity; eexists; reflexivity. }
  set (w0 := set_wire _ w).
  pose proof (check_and_get_dest_reads_only (Clitool.a_dest a) w0) as Hw.
  destruct (Clitool.check_and_get_dest (Clitool.a_dest a) w0)
    as [[[path fname]|e] w1]; simpl in Hw; subst w1; simpl;
    split; try reflexivity; eexists; reflexivity.
Qed.


(** ** The float count of [calculate_shards] below [2^53] *)

Section FloatCount.

Local Open Scope Z_scope.
(** The number of binary digits of a mantissa *)
Lemma digits2_size (p : positive) : digits2_pos p = Pos.size p.
Proof. induction p; simpl; congruence. Qed.

Lemma digits2_bounds (p : positive) :
  2 ^ (Z.pos (digits2_pos p) - 1) <= Z.pos p < 2 ^ Z.pos (digits2_pos p).
Proof.
  rewrite digits2_size.
  pose proof (Pos.size_gt p) as Hgt.
  pose proof (Pos.size_le p) as Hle.
  apply Pos2Z.pos_lt_pos in Hgt. apply Pos2Z.pos_le_pos in Hle.
  rewrite Pos2Z.inj_pow in Hgt, Hle.
  change (Z.pos 2) with 2 in *.
  assert (E : 2 ^ Z.pos (Pos.size p) = 2 * 2 ^ (Z.pos (Pos.size p) - 1)).
  { rewrite <- Z.pow_succ_r by lia. f_equal. lia. }
  rewrite E in Hle. lia.
Qed.

Lemma digits2_unique (p : positive) (d : Z) :
  2 ^ (d - 1) <= Z.pos p < 2 ^ d -> Z.pos (digits2_pos p) = d.
Proof.
  intros [Hlo Hhi]. pose proof (digits2_bounds p) as [Blo Bhi].
  assert (0 < d).
  { destruct (Z_lt_le_dec 0 d); [assumption|].
    assert (2 ^ d <= 1).
    { destruct (Z.eq_dec d 0) as [->|]; [simpl; lia|].
      rewrite Z.pow_neg_r by lia. lia. }
    lia. }
  destruct (Z_lt_le_dec (Z.pos (digits2_pos p)) d) as [Hlt|Hge].
  - assert (2 ^ Z.pos (digits2_pos p) <= 2 ^ (d - 1))
      by (apply Z.pow_le_mono_r; lia). lia.
  - destruct (Z_lt_le_dec d (Z.pos (digits2_pos p))) as [Hlt|Hge'];
      [|lia].
    assert (2 ^ d <= 2 ^ (Z.pos (digits2_pos p) - 1))
      by (apply Z.pow_le_mono_r; lia). lia.
Qed.

Lemma iter_xO_value (p k : positive) :
  Z.pos (Pos.iter xO p k) = Z.pos p * 2 ^ Z.pos k.
Proof.
  induction k as [|k IH] using Pos.peano_ind.
  - simpl. lia.
  - rewrite Pos.iter_succ, Pos2Z.inj_xO, IH, Pos2Z.inj_succ.
    rewrite Z.pow_succ_r by lia. lia.
Qed.

Lemma fexp_normal (e : Z) :
  -1021 <= e -> fexp PyFloat.prec PyFloat.emax e = e - 53.
Proof. unfold fexp, emin, PyFloat.prec, PyFloat.emax. lia. Qed.

Lemma round_aux_exact_53 (m : positive) (e : Z) :
  Z.pos (digits2_pos m) = 53 -> -1074 <= e <= 971 ->
  binary_round_aux PyFloat.prec PyFloat.emax false (Z.pos m) e loc_Exact =
  S754_finite false m e.
Proof.
  intros Hd He.
  assert (Hs : fexp PyFloat.prec PyFloat.emax (Zdigits2 (Z.pos m) + e) - e = 0).
  { simpl Zdigits2. rewrite Hd. rewrite fexp_normal by lia. lia. }
  unfold binary_round_aux, shr_fexp.
  rewrite Hs. simpl. rewrite Hd.
  replace (fexp PyFloat.prec PyFloat.emax (53 + e) - e) with 0
    by (rewrite fexp_normal by lia; lia).
  simpl.
  destruct (Z.leb_spec e (PyFloat.emax - PyFloat.prec)) as [_|H];
    [reflexivity|].
  unfold PyFloat.emax, PyFloat.prec in H. lia.
Qed.

(** [float(z)] is exact for [0 < z < 2^53]: a 53-digit mantissa and an
    exponent between [-52] and [0]. *)
Lemma float_of_int_exact (z : Z) :
  0 < z < 2 ^ 53 ->
  exists m e,
    PyFloat.float_of_int z = Ok (S754_finite false m e)
    /\ Z.pos (digits2_pos m) = 53
    /\ -52 <= e <= 0
    /\ Z.pos m = z * 2 ^ (- e).
Proof.
  intros [Hlo Hhi]. destruct z as [|p|p]; try lia.
  pose proof (digits2_bounds p) as [Blo Bhi].
  assert (Hd : 1 <= Z.pos (digits2_pos p) <= 53).
  { split; [lia|].
    destruct (Z_lt_le_dec 53 (Z.pos (digits2_pos p))) as [H|H]; [|lia].
    assert (2 ^ 53 <= 2 ^ (Z.pos (digits2_pos p) - 1))
      by (apply Z.pow_le_mono_r; lia). lia. }
  unfold PyFloat.float_of_int, binary_normalize, binary_round, shl_align.
  rewrite Z.add_0_r, fexp_normal by lia.
  rewrite Z.sub_0_r.
  destruct (Z.pos (digits2_pos p) - 53) as [|k|k] eqn:Ek; try lia.
  - rewrite round_aux_exact_53 by lia.
    exists p, 0. repeat split; try lia.
  - assert (Hk : Z.pos k = 53 - Z.pos (digits2_pos p)) by lia.
    assert (Hm : Z.pos (digits2_pos (Pos.iter xO p k)) = 53).
    { apply digits2_unique. rewrite iter_xO_value, Hk.
      replace (2 ^ (53 - 1)) with
        (2 ^ (Z.pos (digits2_pos p) - 1) * 2 ^ (53 - Z.pos (digits2_pos p))).
      2:{ rewrite <- Z.pow_add_r by lia. f_equal. lia. }
      replace (2 ^ 53) with
        (2 ^ Z.pos (digits2_pos p) * 2 ^ (53 - Z.pos (digits2_pos p))).
      2:{ rewrite <- Z.pow_add_r by lia. f_equal. lia. }
      assert (0 < 2 ^ (53 - Z.pos (digits2_pos p)))
        by (apply Z.pow_pos_nonneg; lia).
      nia. }
    rewrite round_aux_exact_53 by lia.
    exists (Pos.iter xO p k), (Z.neg k). repeat split; try lia.
    rewrite iter_xO_value. reflexivity.
Qed.

(** The location that the division computes from its remainder *)
Lemma new_location_spec (den r : Z) :
  0 <= r < den -> new_location den r = loc_of r den.
Proof.
  intros Hr. unfold new_location, new_location_even, new_location_odd, loc_of.
  destruct (Z.even den) eqn:Ev; [reflexivity|].
  destruct (r =? 0); [reflexivity|].
  assert (Hodd : Z.odd den = true) by (rewrite <- Z.negb_even, Ev; reflexivity).
  apply Z.odd_spec in Hodd. destruct Hodd as [k Hk].
  destruct (Z.compare_spec (2 * r + 1) den), (Z.compare_spec (2 * r) den);
    try reflexivity; lia.
Qed.

Lemma round_located (num den : Z) :
  0 < den ->
  round_nearest_even (num / den) (loc_of (num mod den) den) = rne num den.
Proof.
  intros Hd. unfold loc_of, rne, round_nearest_even.
  destruct (Z.eqb_spec (num mod den) 0) as [E|E].
  - rewrite E. simpl. destruct den; try lia; reflexivity.
  - destruct (2 * (num mod den) ?= den); reflexivity.
Qed.

(** Shifting a located quotient right by one bit locates the quotient by
    twice the denominator. *)
Lemma shr_1_located (N D : Z) :
  0 < D -> 0 <= N ->
  shr_1 (shr_record_of_loc (N / D) (loc_of (N mod D) D)) =
  shr_record_of_loc (N / (2 * D)) (loc_of (N mod (2 * D)) (2 * D)).
Proof.
  intros HD HN.
  assert (Hq : N / (2 * D) = (N / D) / 2)
    by (rewrite (Z.mul_comm 2 D), Z.div_div by lia; reflexivity).
  assert (Hr : N mod (2 * D) = N mod D + D * ((N / D) mod 2))
    by (rewrite (Z.mul_comm 2 D), Z.rem_mul_r by lia; reflexivity).
  pose proof (Z.mod_pos_bound N D HD) as Hb.
  pose proof (Z.div_pos N D HN HD) as Hm.
  rewrite Hq, Hr. clear Hq Hr.
  set (m := N / D) in *. set (r := N mod D) in *.
  pose proof (Z.div_mod m 2 ltac:(lia)) as Hm2.
  pose proof (Z.mod_pos_bound m 2 ltac:(lia)) as Hm2b.
  unfold loc_of.
  destruct (Z.eqb_spec r 0) as [Er|Er].
  - rewrite Er, Z.add_0_l. simpl shr_record_of_loc.
    destruct m as [|[p|p|]|p]; try lia; simpl shr_1.
    + change (0 mod 2) with 0. change (0 / 2) with 0. rewrite Z.mul_0_r.
      reflexivity.
    + assert (Z.pos p~1 mod 2 = 1) as ->
        by (rewrite Pos2Z.inj_xI, Z.add_comm, Z.mul_comm, Z.mod_add by lia;
            reflexivity).
      assert (Z.pos p~1 / 2 = Z.pos p) as ->
        by (rewrite Pos2Z.inj_xI; symmetry; apply Z.div_unique with 1; lia).
      rewrite Z.mul_1_r.
      destruct (Z.eqb_spec D 0); [lia|].
      rewrite Z.compare_refl. reflexivity.
    + assert (Z.pos p~0 mod 2 = 0) as ->
        by (rewrite Pos2Z.inj_xO, Z.mul_comm, Z.mod_mul by lia; reflexivity).
      assert (Z.pos p~0 / 2 = Z.pos p) as ->
        by (rewrite Pos2Z.inj_xO, Z.mul_comm, Z.div_mul by lia; reflexivity).
      rewrite Z.mul_0_r. reflexivity.
    + change (1 mod 2) with 1. change (1 / 2) with 0. rewrite Z.mul_1_r.
      destruct (Z.eqb_spec D 0); [lia|].
      rewrite Z.compare_refl. reflexivity.
  - destruct (Z.eqb_spec (r + D * (m mod 2)) 0) as [E0|E0]; [nia|].
    destruct m as [|[p|p|]|p]; try lia.
    + change (0 mod 2) with 0. change (0 / 2) with 0.
      rewrite Z.mul_0_r, Z.add_0_r.
      assert ((2 * r ?= 2 * D) = Lt) as -> by (apply Z.compare_lt_iff; lia).
      destruct (2 * r ?= D); reflexivity.
    + assert (Z.pos p~1 mod 2 = 1) as ->
        by (rewrite Pos2Z.inj_xI, Z.add_comm, Z.mul_comm, Z.mod_add by lia;
            reflexivity).
      assert (Z.pos p~1 / 2 = Z.pos p) as ->
        by (rewrite Pos2Z.inj_xI; symmetry; apply Z.div_unique with 1; lia).
      rewrite Z.mul_1_r.
      assert ((2 * (r + D) ?= 2 * D) = Gt) as ->
        by (apply Z.compare_gt_iff; lia).
      destruct (2 * r ?= D); reflexivity.
    + assert (Z.pos p~0 mod 2 = 0) as ->
        by (rewrite Pos2Z.inj_xO, Z.mul_comm, Z.mod_mul by lia; reflexivity).
      assert (Z.pos p~0 / 2 = Z.pos p) as ->
        by (rewrite Pos2Z.inj_xO, Z.mul_comm, Z.div_mul by lia; reflexivity).
      rewrite Z.mul_0_r, Z.add_0_r.
      assert ((2 * r ?= 2 * D) = Lt) as -> by (apply Z.compare_lt_iff; lia).
      destruct (2 * r ?= D); reflexivity.
    + change (1 mod 2) with 1. change (1 / 2) with 0. rewrite Z.mul_1_r.
      assert ((2 * (r + D) ?= 2 * D) = Gt) as ->
        by (apply Z.compare_gt_iff; lia).
      destruct (2 * r ?= D); reflexivity.
Qed.

Lemma shr_m_of_loc (m : Z) (l : location) :
  shr_m (shr_record_of_loc m l) = m.
Proof. destruct l as [|[]]; reflexivity. Qed.

Lemma loc_of_shr_record_of_loc (m : Z) (l : location) :
  loc_of_shr_record (shr_record_of_loc m l) = l.
Proof. destruct l as [|[]]; reflexivity. Qed.

Lemma shr_fexp_53 (m e : Z) (l : location) :
  2 ^ 52 <= m < 2 ^ 53 -> -1074 <= e ->
  shr_fexp PyFloat.prec PyFloat.emax m e l = (shr_record_of_loc m l, e).
Proof.
  intros Hm He. unfold shr_fexp.
  destruct m as [|p|p]; try lia.
  simpl Zdigits2. rewrite (digits2_unique p 53) by (simpl; lia).
  rewrite fexp_normal by lia.
  replace (53 + e - 53 - e) with 0 by lia. reflexivity.
Qed.

Lemma shr_fexp_54 (m e : Z) (l : location) :
  2 ^ 53 <= m < 2 ^ 54 -> -1075 <= e ->
  shr_fexp PyFloat.prec PyFloat.emax m e l =
  (shr_1 (shr_record_of_loc m l), e + 1).
Proof.
  intros Hm He. unfold shr_fexp.
  destruct m as [|p|p]; try lia.
  simpl Zdigits2. rewrite (digits2_unique p 54) by (simpl; lia).
  rewrite fexp_normal by lia.
  replace (54 + e - 53 - e) with 1 by lia. reflexivity.
Qed.

Lemma rne_bounds (N D : Z) :
  0 < D -> N / D <= rne N D <= N / D + 1.
Proof.
  intros HD. unfold rne.
  destruct (2 * (N mod D) ?= D); [destruct (Z.even (N / D))| |]; lia.
Qed.

Lemma ceil_scaled_double (m e : Z) :
  ceil_scaled (2 * m) e = ceil_scaled m (e + 1).
Proof.
  unfold ceil_scaled.
  destruct e as [|k|k].
  - simpl. lia.
  - replace (Z.pos k + 1) with (Z.succ (Z.pos k)) by lia.
    destruct (Z.succ (Z.pos k)) eqn:E; try lia.
    rewrite <- E, Z.pow_succ_r by lia. lia.
  - destruct (Z.neg k + 1) as [|j|j] eqn:E; try lia.
    + assert (k = 1%positive) as -> by lia.
      change (2 ^ 1) with 2. change (2 ^ 0) with 1.
      replace (- (2 * m)) with ((- m) * 2) by lia.
      rewrite Z.div_mul by lia. lia.
    + assert (Hk : Z.pos k = Z.succ (Z.pos j)) by lia.
      rewrite Hk, Z.pow_succ_r by lia.
      replace (- (2 * m)) with (2 * (- m)) by lia.
      rewrite Z.div_mul_cancel_l by (try apply Z.pow_nonzero; lia).
      reflexivity.
Qed.

(** Rounding a located 53-digit quotient: the result is finite and has
    the value of the nearest integer multiple, ties to even. *)
Lemma binary_round_aux_located (N D e : Z) :
  0 < D -> 0 <= N -> 2 ^ 52 <= N / D < 2 ^ 53 -> -1074 <= e <= 900 ->
  exists M E,
    binary_round_aux PyFloat.prec PyFloat.emax false (N / D) e
      (loc_of (N mod D) D) =
    S754_finite false M E
    /\ ceil_scaled (Z.pos M) E = ceil_scaled (rne N D) e.
Proof.
  intros HD HN Hq He. unfold binary_round_aux.
  rewrite shr_fexp_53 by lia.
  rewrite shr_m_of_loc, loc_of_shr_record_of_loc, round_located by lia.
  pose proof (rne_bounds N D HD) as Hb.
  destruct (Z_lt_le_dec (rne N D) (2 ^ 53)) as [Hlt|Hge].
  - rewrite shr_fexp_53 by lia. simpl shr_m.
    destruct (rne N D) as [|p|p] eqn:Ep; try lia.
    destruct (Z.leb_spec e (PyFloat.emax - PyFloat.prec)) as [_|H];
      [|unfold PyFloat.emax, PyFloat.prec in H; lia].
    exists p, e. split; reflexivity.
  - assert (Ep : rne N D = 2 ^ 53) by lia.
    rewrite Ep. rewrite shr_fexp_54 by lia.
    change (shr_m (shr_1 (shr_record_of_loc (2 ^ 53) loc_Exact)))
      with (2 ^ 52).
    change (2 ^ 52) with (Z.pos (2 ^ 52)%positive) at 1.
    cbv iota beta.
    destruct (Z.leb_spec (e + 1) (PyFloat.emax - PyFloat.prec)) as [_|H];
      [|unfold PyFloat.emax, PyFloat.prec in H; lia].
    exists (2 ^ 52)%positive, (e + 1). split; [reflexivity|].
    rewrite <- ceil_scaled_double. reflexivity.
Qed.

Lemma binary_round_aux_shift (N D e : Z) :
  0 < D -> 0 <= N -> 2 ^ 53 <= N / D < 2 ^ 54 -> -1075 <= e ->
  binary_round_aux PyFloat.prec PyFloat.emax false (N / D) e
    (loc_of (N mod D) D) =
  binary_round_aux PyFloat.prec PyFloat.emax false (N / (2 * D)) (e + 1)
    (loc_of (N mod (2 * D)) (2 * D)).
Proof.
  intros HD HN Hq He. unfold binary_round_aux.
  assert (Hh : 2 ^ 52 <= N / (2 * D) < 2 ^ 53).
  { rewrite (Z.mul_comm 2 D), <- Z.div_div by lia.
    split.
    - apply Z.div_le_lower_bound; lia.
    - apply Z.div_lt_upper_bound; lia. }
  rewrite shr_fexp_54 by lia.
  rewrite shr_1_located by lia.
  rewrite (shr_fexp_53 (N / (2 * D))) by lia.
  reflexivity.
Qed.

(** The division of two normal numbers is the rounding of the located
    quotient of the mantissas. *)
Lemma SFdiv_normal (mx my : positive) (ex ey : Z) :
  Z.pos (digits2_pos mx) = 53 -> Z.pos (digits2_pos my) = 53 ->
  -52 <= ex <= 0 -> -52 <= ey <= 0 ->
  SFdiv PyFloat.prec PyFloat.emax (S754_finite false mx ex)
    (S754_finite false my ey) =
  binary_round_aux PyFloat.prec PyFloat.emax false
    ((Z.pos mx * 2 ^ 53) / Z.pos my) (ex - ey - 53)
    (loc_of ((Z.pos mx * 2 ^ 53) mod Z.pos my) (Z.pos my)).
Proof.
  intros Hdx Hdy Hex Hey.
  unfold SFdiv, SFdiv_core_binary. simpl Zdigits2. rewrite Hdx, Hdy.
  assert (He : Z.min (fexp PyFloat.prec PyFloat.emax (53 + ex - (53 + ey)))
                     (ex - ey)
               = ex - ey - 53)
    by (rewrite fexp_normal by lia; lia).
  cbv zeta. rewrite He.
  replace (ex - ey - (ex - ey - 53)) with 53 by lia.
  cbv iota. rewrite Z.shiftl_mul_pow2 by lia.
  pose proof (Z.mod_pos_bound (Z.pos mx * 2 ^ 53) (Z.pos my) ltac:(lia)) as Hr.
  unfold Z.div, Z.modulo in *.
  destruct (Z.div_eucl (Z.pos mx * 2 ^ 53) (Z.pos my)) as [q r].
  rewrite new_location_spec by exact Hr. reflexivity.
Qed.

Lemma rne_scale (x y c : Z) :
  0 < y -> 0 < c -> rne (x * c) (y * c) = rne x y.
Proof.
  intros Hy Hc. unfold rne.
  rewrite Z.div_mul_cancel_r, Z.mul_mod_distr_r by lia.
  rewrite Z.mul_assoc, <- Zmult_compare_compat_r by lia. reflexivity.
Qed.

Lemma cdiv_unique (a b c : Z) :
  0 < b -> (c - 1) * b < a <= c * b -> cdiv a b = c.
Proof.
  intros Hb H. pose proof (cdiv_bounds a b Hb). nia.
Qed.

Lemma ceil_scaled_cdiv (m K : Z) :
  0 <= K -> ceil_scaled m (- K) = cdiv m (2 ^ K).
Proof.
  intros HK. unfold ceil_scaled, cdiv.
  destruct K as [|k|k]; try lia; simpl Z.opp.
  - change (- 0) with 0. cbv iota. change (2 ^ 0) with 1.
    rewrite Z.div_1_r. lia.
  - reflexivity.
Qed.

(** The ceiling of the rounded, scaled quotient is the ceiling of the
    quotient, as long as [f] is below [2^53]. *)
Lemma ceil_rne (f s K : Z) :
  0 < f < 2 ^ 53 -> 0 < s -> 0 <= K -> 2 ^ 52 <= (f * 2 ^ K) / s ->
  ceil_scaled (rne (f * 2 ^ K) s) (- K) = cdiv f s.
Proof.
  intros Hf Hs HK HQ. rewrite ceil_scaled_cdiv by exact HK.
  assert (HT : 0 < 2 ^ K) by (apply Z.pow_pos_nonneg; lia).
  set (T := 2 ^ K) in *.
  pose proof (cdiv_bounds f s Hs) as Hc.
  set (c := cdiv f s) in *.
  pose proof (Z.div_mod (f * T) s ltac:(lia)) as Hdm.
  pose proof (Z.mod_pos_bound (f * T) s Hs) as Hmb.
  pose proof (rne_bounds (f * T) s Hs) as Hrb.
  set (Q := (f * T) / s) in *. set (r := (f * T) mod s) in *.
  assert (H2T : s < 2 * T) by nia.
  assert (HQlo : (c - 1) * T <= Q) by nia.
  assert (HQhi : Q <= c * T) by nia.
  apply cdiv_unique; [exact HT|].
  split.
  - destruct (Z.eq_dec Q ((c - 1) * T)) as [E|E]; [|lia].
    assert (Hr : T <= r) by nia.
    unfold rne. fold Q r.
    assert ((2 * r ?= s) = Gt) as -> by (apply Z.compare_gt_iff; lia).
    lia.
  - destruct (Z.eq_dec Q (c * T)) as [E|E]; [|lia].
    assert (Hr : r = 0) by nia.
    unfold rne. fold Q r. rewrite Hr.
    assert ((2 * 0 ?= s) = Lt) as -> by (apply Z.compare_lt_iff; lia).
    lia.
Qed.

(** Below [2^53] the count that [calculate_shards] computes in floats is
    the ceiling of [file_size / shard_size]. *)
Lemma num_shards_exact (file_size shard_size : Z) :
  0 < file_size < 2 ^ 53 -> 0 < shard_size < 2 ^ 53 ->
  Clitool.num_shards file_size (Some shard_size) =
  Ok (cdiv file_size shard_size).
Proof.
  intros Hf Hs.
  destruct (float_of_int_exact file_size Hf)
    as (mx & ex & Hx & Hdx & Hex & Hmx).
  destruct (float_of_int_exact shard_size Hs)
    as (my & ey & Hy & Hdy & Hey & Hmy).
  unfold Clitool.num_shards, PyFloat.int_truediv.
  rewrite Hy. cbn [rbind]. rewrite Hx.
  cbn [rbind]. unfold PyFloat.truediv. cbv iota. cbn [rbind].
  rewrite SFdiv_normal by assumption.
  pose proof (digits2_bounds mx) as Bx. rewrite Hdx in Bx.
  pose proof (digits2_bounds my) as By. rewrite Hdy in By.
  set (N := Z.pos mx * 2 ^ 53). set (D := Z.pos my).
  assert (HD : 0 < D) by (unfold D; lia).
  assert (HN : 0 <= N) by (unfold N; lia).
  assert (Hq : 2 ^ 52 <= N / D < 2 ^ 54).
  { split.
    - apply Z.div_le_lower_bound; [lia|]. unfold N, D. simpl in *. nia.
    - apply Z.div_lt_upper_bound; [lia|]. unfold N, D. simpl in *. nia. }
  assert (Ha : 0 < 2 ^ (- ex)) by (apply Z.pow_pos_nonneg; lia).
  assert (Hb : 0 < 2 ^ (- ey)) by (apply Z.pow_pos_nonneg; lia).
  destruct (Z_lt_le_dec (N / D) (2 ^ 53)) as [H53|H54].
  - destruct (binary_round_aux_located N D (ex - ey - 53) HD HN
                ltac:(lia) ltac:(lia)) as (M & E & -> & Hc).
    cbn [PyFloat.int_ceil rbind]. f_equal.
    change (PyFloat.ceil_finite false M E) with (ceil_scaled (Z.pos M) E).
    rewrite Hc.
    assert (HK : 0 <= - (ex - ey - 53)) by lia.
    assert (HN' : N = (file_size * 2 ^ (- (ex - ey - 53))) * 2 ^ (- ey)).
    { unfold N. rewrite Hmx, <- !Z.mul_assoc. f_equal.
      rewrite <- !Z.pow_add_r by lia. f_equal. lia. }
    assert (HD' : D = shard_size * 2 ^ (- ey)) by (unfold D; exact Hmy).
    rewrite HN', HD' in *.
    rewrite rne_scale by lia.
    rewrite Z.div_mul_cancel_r in H53, Hq by lia.
    replace (ex - ey - 53) with (- (- (ex - ey - 53))) at 2 by lia.
    apply ceil_rne; lia.
  - rewrite binary_round_aux_shift by lia.
    assert (Hh : 2 ^ 52 <= N / (2 * D) < 2 ^ 53).
    { rewrite (Z.mul_comm 2 D), <- Z.div_div by lia.
      split.
      - apply Z.div_le_lower_bound; lia.
      - apply Z.div_lt_upper_bound; lia. }
    destruct (binary_round_aux_located N (2 * D) (ex - ey - 53 + 1)
                ltac:(lia) HN Hh ltac:(lia)) as (M & E & -> & Hc).
    cbn [PyFloat.int_ceil rbind]. f_equal.
    change (PyFloat.ceil_finite false M E) with (ceil_scaled (Z.pos M) E).
    rewrite Hc.
    assert (HK : 0 <= - (ex - ey - 53 + 1)) by lia.
    assert (HN' : N = (file_size * 2 ^ (- (ex - ey - 53 + 1)))
                      * (2 * 2 ^ (- ey))).
    { unfold N. rewrite Hmx, <- !Z.mul_assoc. f_equal.
      rewrite <- Z.pow_succ_r, <- !Z.pow_add_r by lia. f_equal. lia. }
    assert (HD' : 2 * D = shard_size * (2 * 2 ^ (- ey)))
      by (unfold D; rewrite Hmy; lia).
    rewrite HD' in *. rewrite HN' in *.
    rewrite rne_scale by lia.
    rewrite Z.div_mul_cancel_r in Hh by lia.
    replace (ex - ey - 53 + 1) with (- (- (ex - ey - 53 + 1))) at 2 by lia.
    apply ceil_rne; lia.
Qed.

(** For a file of fewer than [2^53] bytes and a shard size below [2^53],
    the float count is the ceiling, and the plan has every property of
    a tiling of the file. *)
Lemma plan_shards_below_2p53 (file_size shard_size : Z) :
  0 < file_size < 2 ^ 53 -> 0 < shard_size < 2 ^ 53 ->
  exists l,
    Clitool.plan_shards file_size (Some shard_size) = Ok l
    /\ Z.of_nat (length l) = cdiv file_size shard_size
    /\ contiguous_from 0 l
    /\ separated l
    /\ clamped_total file_size l = file_size.
Proof.
  intros Hf Hs.
  apply plan_shards_with_exact_count; [lia | lia |].
  apply num_shards_exact; assumption.
Qed.

Lemma calculate_shards_below_2p53 (a : Clitool.args) (filepath : string)
    (data : list byte) (shard_size : Z) (w : world) :
  Os.stat w filepath = Some (File data) ->
  0 < Z.of_nat (length data) < 2 ^ 53 -> 0 < shard_size < 2 ^ 53 ->
  exists l,
    Clitool.calculate_shards a (Some shard_size) filepath w = (Ok l, w)
    /\ Z.of_nat (length l) = cdiv (Z.of_nat (length data)) shard_size
    /\ contiguous_from 0 l
    /\ separated l
    /\ clamped_total (Z.of_nat (length data)) l = Z.of_nat (length data).
Proof.
  intros Hst Hf Hs.
  destruct (plan_shards_below_2p53 _ _ Hf Hs) as (l & Hp & Hl).
  exists l. split; [|exact Hl].
  unfold Clitool.calculate_shards, Os.getsize, bind, lift.
  rewrite Hst, Hp. reflexivity.
Qed.

End FloatCount.

(** ** What a successful download writes *)

Lemma pieces_concat (fuel n : nat) (body : list byte) :
  (0 < n)%nat -> (length body <= fuel)%nat ->
  concat (Streamer.pieces fuel n body) = body.
Proof.
  intros Hn. revert body. induction fuel as [|fuel IH]; intros body Hlen.
  - destruct body; [reflexivity | simpl in Hlen; lia].
  - destruct body as [|b body]; [reflexivity|].
    destruct n as [|n]; [lia|].
    change (Streamer.pieces (S fuel) (S n) (b :: body))
      with (firstn (S n) (b :: body)
              :: Streamer.pieces fuel (S n) (skipn (S n) (b :: body))).
    rewrite concat_cons, IH.
    + apply firstn_skipn.
    + rewrite length_skipn. simpl in *. lia.
Qed.

Lemma for_each_write_content (k : list string) (l : list (list byte))
    (d : list byte) (w : world) :
  fs w !! k = Some (File d) ->
  fs (snd (for_each l (Os.write k) w)) !! k =
  Some (File (d ++ concat l)%list).
Proof.
  revert d w. induction l as [|x l IH]; intros d w Hk.
  - simpl. rewrite app_nil_r. exact Hk.
  - simpl. unfold bind, Os.write. simpl. rewrite Hk.
    rewrite (IH (d ++ x)%list).
    + rewrite <- app_assoc. reflexivity.
    + simpl. apply lookup_insert_eq.
Qed.

Lemma open_write_wb_empty (p : string) (k : list string) (w w' : world) :
  Os.open_write p Os.wb w = (Ok k, w') ->
  fs w' !! k = Some (File []) /\ wire w' = wire w.
Proof.
  unfold Os.open_write.
  destruct (Os.resolve w p) as [k0|]; [|discriminate].
  destruct (fs w !! k0) as [[n|d]|]; intros [= <- <-]; simpl;
    split; try reflexivity; apply lookup_insert_eq.
Qed.

Lemma iter_content_concat (r : response) (chunksize : Z) :
  (0 < chunksize)%Z ->
  concat (Streamer.iter_content r chunksize) = content r.
Proof.
  intros Hc. unfold Streamer.iter_content. apply pieces_concat; lia.
Qed.

(** When the checks pass, the answer is [200] and the destination can be
    opened, [Streamer.download] returns [True] and the file holds the
    body of the answer, whatever the positive size of the pieces. *)
Lemma download_200_writes_body (self : Streamer.t) (chunk : Streamer.Chunk)
    (dest : option string) (chunksize : Z) (savepath : string)
    (k : list string) (w w1 : world) :
  (0 < chunksize)%Z ->
  download_checks chunk dest w = Ok savepath ->
  status_code (download_response self chunk w) = 200 ->
  Os.open_write savepath Os.wb
    (set_wire (wire w ++ [download_request self chunk]) w) = (Ok k, w1) ->
  let out := Streamer.download self chunk dest chunksize w in
  fst out = Ok Streamer.ReturnTrue
  /\ fs (snd out) !! k =
     Some (File (content (download_response self chunk w))).
Proof.
  intros Hpos Hc Hs Ho out. subst out. rewrite download_unfold, Hc.
  unfold download_transfer, download_response in *. step_monad.
  rewrite Hs. simpl. rewrite Ho.
  destruct (open_write_wb_empty _ _ _ _ Ho) as [Hk _].
  pose proof (for_each_write_content k
    (Streamer.iter_content (remote w (wire w) (download_request self chunk))
       chunksize) [] w1 Hk) as Hfs.
  destruct (for_each_write_ok k
    (Streamer.iter_content (remote w (wire w) (download_request self chunk))
       chunksize) w1) as [Hok _].
  destruct (for_each _ _ w1) as [[[]|e] w2]; simpl in *; [|discriminate].
  split; [reflexivity|].
  rewrite Hfs, (iter_content_concat _ _ Hpos). reflexivity.
Qed.

(** ** A shard size of zero, for a file of fewer than [2^53] bytes *)

Lemma zero_shard_size_on_a_file (a : Clitool.args) (filepath : string)
    (data : list byte) (w : world) :
  Os.stat w filepath = Some (File data) ->
  (Z.of_nat (length data) < 2 ^ 53)%Z ->
  Clitool.calculate_shards a (Some 0%Z) filepath w =
  (Raise (Exn ZeroDivisionError ["float division by zero"]), w).
Proof.
  intros Hst Hlen.
  unfold Clitool.calculate_shards, Os.getsize, bind, lift. rewrite Hst.
  destruct (plan_shards_zero (Z.of_nat (length data))) as [-> _].
  destruct (Z.eq_dec (Z.of_nat (length data)) 0) as [->|Hne];
    [reflexivity|].
  destruct (float_of_int_exact (Z.of_nat (length data)) ltac:(lia))
    as (m & e & -> & _).
  reflexivity.
Qed.

(** * Further properties of the two files *)

(** ** [Streamer.upload] and its helpers *)

Lemma set_fs_same (w : world) : set_fs (fs w) w = w.
Proof. destruct w; reflexivity. Qed.

(** X1. [Streamer.upload] of a path that, after [expanduser], is not a
    regular file raises [FileError] with the path as it was given, and
    the world is unchanged: nothing was sent. *)
Theorem upload_rejects_non_file (from_json : string -> res Streamer.Chunk)
    (self : Streamer.t) (filepath : string) (w : world) :
  Os.isfile w (Os.expanduser w filepath) = false ->
  Streamer.upload from_json self filepath w =
  (Raise (Exn FileError [filepath ++ " not a file or not found"]), w).
Proof.
  intros H.
  unfold Streamer.upload, Streamer._upload_form_encoded,
    Streamer._upload_check_path.
  step_monad. rewrite H. reflexivity.
Qed.

Lemma upload_rejects_non_file_witness :
  let w := Demo.world_with Demo.store in
  Streamer.upload Demo.shard_of Demo.node1 "/data/missing" w =
    (Raise (Exn FileError ["/data/missing not a file or not found"]), w)
  /\ Streamer.upload Demo.shard_of Demo.node1 "/data" w =
    (Raise (Exn FileError ["/data not a file or not found"]), w).
Proof.
  intros w. split; apply upload_rejects_non_file; vm_compute; reflexivity.
Defined.

(** X2. For a file that is there, [Streamer.upload] makes one call on
    the network and no more, whatever the answer: a [requests.post] to
    [<server>/api/upload] with the single part [file], under the fixed
    file name [testfile], holding all the bytes of the file.  It calls
    neither [requests.get] nor [urlopen], and no file is changed. *)
Theorem upload_sends_one_post (from_json : string -> res Streamer.Chunk)
    (self : Streamer.t) (filepath : string) (data : list byte) (w : world) :
  Os.stat w (Os.expanduser w filepath) = Some (File data) ->
  let out := Streamer.upload from_json self filepath w in
  wire (snd out) =
    (wire w ++ [Request POST (Streamer.server self ++ "/api/upload")
                  [Part "file" "testfile" data]])%list
  /\ fs (snd out) = fs w.
Proof.
  intros H out. subst out.
  unfold Streamer.upload, Streamer._upload_form_encoded,
    Streamer._upload_check_path, Os.read_file, Os.isfile.
  step_monad. rewrite H. simpl. rewrite H. simpl.
  repeat match goal with
         | |- context [if ?b then _ else _] => destruct b; simpl
         end; split; reflexivity.
Qed.

Lemma upload_sends_one_post_witness :
  let out := Streamer.upload Demo.shard_of Demo.node1 "/data/f"
               (Demo.world_with (Demo.always 500 "ERROR" "no")) in
  wire (snd out) =
    [Request POST "http://node/api/upload"
       [Part "file" "testfile" (Demo.bytes "abcdef")]]
  /\ fs (snd out) = Demo.files.
Proof.
  apply (upload_sends_one_post Demo.shard_of Demo.node1 "/data/f"
           (Demo.bytes "abcdef")
           (Demo.world_with (Demo.always 500 "ERROR" "no"))).
  vm_compute. reflexivity.
Defined.

(** ** [Streamer.download] *)

Lemma for_each_write_world (k : list string) (l : list (list byte))
    (d : list byte) (w : world) :
  fs w !! k = Some (File d) ->
  for_each l (Os.write k) w =
  (Ok tt, set_fs (<[k := File (d ++ concat l)%list]> (fs w)) w).
Proof.
  revert d w. induction l as [|x l IH]; intros d w Hk.
  - simpl. rewrite app_nil_r, insert_id by exact Hk.
    rewrite set_fs_same. reflexivity.
  - simpl. unfold bind, Os.write. simpl. rewrite Hk.
    rewrite (IH (d ++ x)%list) by (simpl; apply lookup_insert_eq).
    simpl. unfold set_fs. simpl. rewrite insert_insert_eq.
    rewrite <- app_assoc. reflexivity.
Qed.

Lemma download_checks_pass (chunk : Streamer.Chunk) (d : string)
    (w : world) :
  Streamer.filehash chunk <> "" -> d <> "" ->
  Os.exists_ w d = false -> Os.isdir w (dest_dir w d) = true ->
  download_checks chunk (Some d) w =
  Ok (Os.join (dest_dir w d) (snd (Os.split d))).
Proof.
  intros Hh Hd He Hi. unfold download_checks.
  rewrite (eqb_empty_false _ Hh).
  destruct d as [|c r]; [contradiction|]. rewrite He, Hi. reflexivity.
Qed.

Lemma download_200_world (self : Streamer.t)
    (chunk : Streamer.Chunk) (d : string) (chunksize : Z)
    (k : list string) (w : world) :
  Streamer.filehash chunk <> "" -> d <> "" ->
  Os.exists_ w d = false -> Os.isdir w (dest_dir w d) = true ->
  status_code (download_response self chunk w) = 200 ->
  Os.resolve w (Os.join (dest_dir w d) (snd (Os.split d))) = Some k ->
  fs w !! k = None ->
  Streamer.download self chunk (Some d) chunksize w =
  (Ok Streamer.ReturnTrue,
   set_fs
     (<[k := File (concat (Streamer.iter_content
                             (download_response self chunk w) chunksize))]>
        (fs w))
     (set_wire (wire w ++ [download_request self chunk]) w)).
Proof.
  intros Hh Hd He Hi Hs Hr Hk.
  rewrite download_unfold, (download_checks_pass _ _ _ Hh Hd He Hi).
  unfold download_transfer, download_response in *. step_monad.
  rewrite Hs. simpl.
  unfold Os.open_write. simpl.
  change (Os.resolve (set_wire (wire w ++ [download_request self chunk]) w)
            (Os.join (dest_dir w d) (snd (Os.split d))))
    with (Os.resolve w (Os.join (dest_dir w d) (snd (Os.split d)))).
  rewrite Hr, Hk.
  rewrite (for_each_write_world k _ []) by (simpl; apply lookup_insert_eq).
  simpl. unfold set_fs, set_wire. simpl. rewrite insert_insert_eq.
  reflexivity.
Qed.

Lemma download_200_step (self : Streamer.t)
    (chunk : Streamer.Chunk) (d : string) (chunksize : Z)
    (k : list string) (w : world) :
  0 < chunksize ->
  Streamer.filehash chunk <> "" -> d <> "" ->
  Os.exists_ w d = false -> Os.isdir w (dest_dir w d) = true ->
  status_code (download_response self chunk w) = 200 ->
  Os.resolve w (Os.join (dest_dir w d) (snd (Os.split d))) = Some k ->
  fs w !! k = None ->
  Streamer.download self chunk (Some d) chunksize w =
  (Ok Streamer.ReturnTrue,
   set_fs (<[k := File (content (download_response self chunk w))]> (fs w))
     (set_wire (wire w ++ [download_request self chunk]) w)).
Proof.
  intros Hc Hh Hd He Hi Hs Hr Hk.
  rewrite (download_200_world self chunk d chunksize k w Hh Hd He Hi Hs
             Hr Hk).
  rewrite (iter_content_concat _ _ Hc). reflexivity.
Qed.

(** X3. For a chunk with a [filehash] and a destination [d] that does
    not exist in a directory that does: when the answer is 200 and the
    path to save to names a new entry [k], [Streamer.download] returns
    [True] and changes the world in two ways only.  The call of
    [requests.get] is on the wire, and the new file holds exactly the
    body of the answer, for every positive [chunksize] it was written
    with; all other files are as before. *)
Theorem download_200_creates_the_file (self : Streamer.t)
    (chunk : Streamer.Chunk) (d : string) (chunksize : Z)
    (k : list string) (w : world) :
  0 < chunksize ->
  Streamer.filehash chunk <> "" -> d <> "" ->
  Os.exists_ w d = false -> Os.isdir w (dest_dir w d) = true ->
  status_code (download_response self chunk w) = 200 ->
  Os.resolve w (Os.join (dest_dir w d) (snd (Os.split d))) = Some k ->
  fs w !! k = None ->
  Streamer.download self chunk (Some d) chunksize w =
  (Ok Streamer.ReturnTrue,
   set_fs (<[k := File (content (download_response self chunk w))]> (fs w))
     (set_wire (wire w ++ [download_request self chunk]) w)).
Proof. apply download_200_step. Qed.

Lemma download_200_creates_the_file_witness :
  let w := Demo.world_with Demo.store in
  Streamer.download Demo.node1 (Demo.shard "h1") (Some "/tmp/out") 1 w =
  (Ok Streamer.ReturnTrue,
   set_fs (<[ ["tmp"; "out"] := File (Demo.bytes "ab") ]> Demo.files)
     (set_wire [download_request Demo.node1 (Demo.shard "h1")] w)).
Proof.
  intros w.
  apply (download_200_creates_the_file Demo.node1 (Demo.shard "h1")
           "/tmp/out" 1 ["tmp"; "out"] w);
    [lia | simpl; discriminate | discriminate | vm_compute; reflexivity
     | vm_compute; reflexivity | vm_compute; reflexivity
     | vm_compute; reflexivity | vm_compute; reflexivity].
Defined.




Lemma open_write_wire (p : string) (mode : Os.write_mode)
    (r : res (list string)) (w w' : world) :
  Os.open_write p mode w = (r, w') -> wire w' = wire w.
Proof.
  unfold Os.open_write.
  destruct (Os.resolve w p) as [k|]; [|intros [= _ <-]; reflexivity].
  destruct (fs w !! k) as [[n|d]|], mode; intros [= _ <-]; reflexivity.
Qed.

Lemma download_transfer_wire (self : Streamer.t) (chunk : Streamer.Chunk)
    (savepath : string) (chunksize : Z) (w : world) :
  wire (snd (download_transfer self chunk savepath chunksize w)) =
  (wire w ++ [download_request self chunk])%list.
Proof.
  unfold download_transfer. step_monad.
  destruct (Z.eqb _ 200); [|reflexivity].
  destruct (Os.open_write savepath Os.wb _) as [[k|e] w1] eqn:Ho;
    apply open_write_wire in Ho; simpl in Ho; [|exact Ho].
  destruct (for_each_write_ok k
    (Streamer.iter_content (remote w (wire w) (download_request self chunk))
       chunksize) w1) as [_ Hw].
  destruct (for_each _ _ w1) as [[[]|e] w2]; simpl in *; congruence.
Qed.

(** X4. Whatever its arguments and the world, [Streamer.download] makes
    at most one call on the network, and that call is the
    [requests.get] of [<server>/api/download/<uri>], with no body.  It
    calls neither [requests.post] nor [urlopen]. *)
Theorem download_sends_at_most_one_get (self : Streamer.t)
    (chunk : Streamer.Chunk) (dest : option string) (chunksize : Z)
    (w : world) :
  let out := Streamer.download self chunk dest chunksize w in
  wire (snd out) = wire w
  \/ wire (snd out) =
     (wire w ++ [Request GET (Streamer.server self ++ "/api/download/"
                                ++ Streamer.uri chunk) []])%list.
Proof.
  intros out. subst out. rewrite download_unfold.
  destruct (download_checks chunk dest w) as [savepath|e];
    [|left; reflexivity].
  right. apply download_transfer_wire.
Qed.

(** X5. A chunk with an empty [filehash] is refused with [ChunkError]
    before anything else is looked at: whatever the destination, given
    or not, existing or not, the world is unchanged. *)
Theorem download_without_filehash (self : Streamer.t)
    (chunk : Streamer.Chunk) (dest : option string) (chunksize : Z)
    (w : world) :
  Streamer.filehash chunk = "" ->
  Streamer.download self chunk dest chunksize w =
  (Raise (Exn ChunkError []), w).
Proof.
  intros H. rewrite download_unfold. unfold download_checks. rewrite H.
  reflexivity.
Qed.

Lemma download_without_filehash_witness :
  let w := Demo.world_with Demo.store in
  Streamer.download Demo.node1 (Demo.shard "") (Some "/data/f") 1024 w =
    (Raise (Exn ChunkError []), w)
  /\ Streamer.download Demo.node1 (Demo.shard "") None 1024 w =
    (Raise (Exn ChunkError []), w).
Proof.
  intros w. split; apply download_without_filehash; reflexivity.
Defined.

(** X6. An empty string as destination counts as no destination: for a
    chunk with a [filehash] the call ends in the same [AttributeError]
    as with [None], not in a [FileError], and the world is unchanged. *)
Theorem download_empty_destination (self : Streamer.t)
    (chunk : Streamer.Chunk) (chunksize : Z) (w : world) :
  Streamer.filehash chunk <> "" ->
  Streamer.download self chunk (Some "") chunksize w =
  Streamer.download self chunk None chunksize w
  /\ raises (fst (Streamer.download self chunk (Some "") chunksize w))
       AttributeError
  /\ snd (Streamer.download self chunk (Some "") chunksize w) = w.
Proof.
  intros H. rewrite !download_unfold. unfold download_checks.
  rewrite (eqb_empty_false _ H).
  split; [reflexivity|]. split; [eexists|]; reflexivity.
Qed.

Lemma download_empty_destination_witness :
  let w := Demo.world_with Demo.store in
  raises (fst (Streamer.download Demo.node1 (Demo.shard "h1") (Some "")
                 1024 w)) AttributeError.
Proof.
  intros w.
  apply (download_empty_destination Demo.node1 (Demo.shard "h1") 1024 w).
  simpl. discriminate.
Defined.

(** ** [check_and_get_dest] *)

Lemma check_and_get_dest_unfold (d : string) (w : world) :
  d <> "" ->
  Clitool.check_and_get_dest (Some d) w =
  (if Os.exists_ w d then Raise (Exn FileError [d ++ " already exists"])
   else if Os.isdir w (dest_dir w d)
        then Ok (dest_dir w d, snd (Os.split d))
        else Raise (Exn FileError [dest_dir w d ++ " is not a valid path"]),
   w).
Proof.
  intros Hd. unfold Clitool.check_and_get_dest, dest_dir. step_monad.
  destruct d as [|c r]; [contradiction|]. simpl.
  destruct (Os.exists_ w (String c r)); simpl; [reflexivity|].
  destruct (Os.split (String c r)) as [p fname]; simpl.
  destruct p as [|c' p']; simpl; destruct (Os.isdir w _); reflexivity.
Qed.

(** X7. [check_and_get_dest] and [Streamer.download] decide alike on a
    destination that is given.  When the first raises, the second, for a
    chunk with a [filehash], raises the same exception and sends
    nothing; when the first returns, the second gets as far as its
    request. *)
Theorem check_and_get_dest_agrees_with_download (self : Streamer.t)
    (chunk : Streamer.Chunk) (d : string) (chunksize : Z) (w : world) :
  Streamer.filehash chunk <> "" -> d <> "" ->
  (forall e,
     fst (Clitool.check_and_get_dest (Some d) w) = Raise e ->
     Streamer.download self chunk (Some d) chunksize w = (Raise e, w))
  /\ (forall path fname,
        fst (Clitool.check_and_get_dest (Some d) w) = Ok (path, fname) ->
        wire (snd (Streamer.download self chunk (Some d) chunksize w)) =
        (wire w ++ [download_request self chunk])%list).
Proof.
  intros Hh Hd. rewrite (check_and_get_dest_unfold d w Hd). simpl.
  rewrite download_unfold. unfold download_checks.
  rewrite (eqb_empty_false _ Hh).
  destruct d as [|c r]; [contradiction|].
  destruct (Os.exists_ w (String c r)).
  - split; [intros e [= <-]; reflexivity | intros p f [=]].
  - destruct (Os.isdir w (dest_dir w (String c r))).
    + split; [intros e [=]|]. intros p f _. apply download_transfer_wire.
    + split; [intros e [= <-]; reflexivity | intros p f [=]].
Qed.

Lemma check_and_get_dest_agrees_with_download_witness :
  let w := Demo.world_with Demo.store in
  Streamer.download Demo.node1 (Demo.shard "h1") (Some "/data/f") 1024 w =
    (Raise (Exn FileError ["/data/f already exists"]), w)
  /\ wire (snd (Streamer.download Demo.node1 (Demo.shard "h1")
                  (Some "/tmp/out") 1024 w)) =
     [download_request Demo.node1 (Demo.shard "h1")].
Proof.
  intros w. split.
  - apply (proj1 (check_and_get_dest_agrees_with_download Demo.node1
             (Demo.shard "h1") "/data/f" 1024 w
             ltac:(simpl; discriminate) ltac:(discriminate))).
    vm_compute. reflexivity.
  - apply (proj2 (check_and_get_dest_agrees_with_download Demo.node1
             (Demo.shard "h1") "/tmp/out" 1024 w
             ltac:(simpl; discriminate) ltac:(discriminate)) "/tmp" "out").
    vm_compute. reflexivity.
Defined.

(** X8. [check_and_get_dest] only reads: the world after it is the world
    before it, whatever the destination.  The only exception it raises
    is [FileError], and without a destination it raises nothing and
    returns the working directory with the next [uuid4] name. *)
Theorem check_and_get_dest_only_reads (dest : option string) (w : world) :
  snd (Clitool.check_and_get_dest dest w) = w
  /\ (forall e, fst (Clitool.check_and_get_dest dest w) = Raise e ->
                exn_class e = FileError)
  /\ (dest = None \/ dest = Some "" ->
      fst (Clitool.check_and_get_dest dest w) =
      Ok (Os.abspath w (Os.getcwd w), uuid4_hex w)).
Proof.
  assert (Hno : forall o, o = None \/ o = Some "" ->
            Clitool.check_and_get_dest o w =
            (Ok (Os.abspath w (Os.getcwd w), uuid4_hex w), w)).
  { intros o [->| ->]; reflexivity. }
  destruct dest as [d|].
  - destruct (String.eqb_spec d "") as [->|Hd].
    + rewrite Hno by (right; reflexivity). simpl.
      split; [reflexivity|]. split; [intros e [=] | reflexivity].
    + rewrite (check_and_get_dest_unfold d w Hd). simpl.
      split; [reflexivity|]. split.
      * intros e. destruct (Os.exists_ w d); [intros [= <-]; reflexivity|].
        destruct (Os.isdir w _); intros [= ]; subst; reflexivity.
      * intros [H|H]; [discriminate|]. congruence.
  - rewrite Hno by (left; reflexivity). simpl.
    split; [reflexivity|]. split; [intros e [=] | reflexivity].
Qed.

Lemma check_and_get_dest_only_reads_witness :
  let w := Demo.world_with Demo.store in
  fst (Clitool.check_and_get_dest None w) = Ok ("/", "5f0c2a").
Proof.
  intros w.
  apply (proj2 (proj2 (check_and_get_dest_only_reads None w))).
  left. reflexivity.
Defined.

(** ** The two commands of [clitool.py] *)

Lemma int_of_str_class (s : string) (e : exn) :
  Clitool.int_of_str s = Raise e -> exn_class e = ValueError.
Proof.
  unfold Clitool.int_of_str.
  destruct (match Str.rstrip (Str.lstrip s) with
            | String "-" r => (true, r)
            | String "+" r => (false, r)
            | _ => (false, Str.rstrip (Str.lstrip s))
            end) as [neg digits].
  destruct (Str.isdigit digits); intros [= <-]; reflexivity.
Qed.

Lemma parse_shard_size_class (size : Clitool.size_arg) (e : exn) :
  Clitool.parse_shard_size size = Raise e ->
  exn_class e = ValueError \/ exn_class e = IndexError.
Proof.
  unfold Clitool.parse_shard_size, rbind.
  destruct (Str.isdigit (Clitool.str size)).
  - destruct (Clitool.int_of_str _) eqn:E; intros [= <-].
    left. eapply int_of_str_class; exact E.
  - destruct (Str.unsnoc (Clitool.str size)) as [[number c]|];
      [|intros [= <-]; right; reflexivity].
    cbv zeta.
    repeat match goal with
           | |- context [if ?b then _ else _] => destruct b
           end; try discriminate;
      destruct (Clitool.int_of_str number) eqn:E; intros [= <-];
      left; eapply int_of_str_class; exact E.
Qed.

(** X9. [clitool.upload] never completes and has no effect.  For every
    argument list and every world it raises, either the exception of
    [parse_shard_size] ([ValueError] or [IndexError]) or, when the size
    parses, the [AttributeError] of [Streamer.check_path]; the world is
    unchanged: no connection was probed, no request sent, no file
    touched. *)
Theorem clitool_upload_always_raises
    (from_json : string -> res Streamer.Chunk)
    (a : Clitool.args) (w : world) :
  snd (Clitool.upload from_json a w) = w
  /\ exists e,
       fst (Clitool.upload from_json a w) = Raise e
       /\ (exn_class e = AttributeError \/ exn_class e = ValueError
           \/ exn_class e = IndexError)
       /\ (forall sz, Clitool.parse_shard_size (Clitool.a_shard_size a)
                      = Ok sz ->
                      exn_class e = AttributeError).
Proof.
  unfold Clitool.upload. unfold bind at 1. unfold lift.
  destruct (Clitool.parse_shard_size (Clitool.a_shard_size a))
    as [sz|e] eqn:Hp.
  - split; [reflexivity|]. eexists. split; [reflexivity|].
    split; [left; reflexivity | intros; reflexivity].
  - split; [reflexivity|]. exists e. split; [reflexivity|].
    split; [|intros sz [=]].
    right. apply parse_shard_size_class in Hp. exact Hp.
Qed.

Lemma clitool_upload_always_raises_witness :
  exists e,
    fst (Clitool.upload Demo.shard_of
           (Demo.cli "/data/f" (Clitool.SizeStr "250m") [] None)
           (Demo.world_with Demo.store)) = Raise e
    /\ exn_class e = AttributeError.
Proof.
  destruct (clitool_upload_always_raises Demo.shard_of
              (Demo.cli "/data/f" (Clitool.SizeStr "250m") [] None)
              (Demo.world_with Demo.store)) as (_ & e & He & _ & Hc).
  exists e. split; [exact He|].
  apply (Hc (Some 262144000)). vm_compute. reflexivity.
Defined.

(** X10. What [clitool.download] does, in every world.  It writes no
    file and never calls [requests]; its one call on the network is
    the [urlopen] of the server, made once the URIs have parsed.  Its
    result is decided in this order.  A URI that does not parse gives
    the parser's exception, before the server is tried; a [urlopen]
    that raises gives [ConnectError] for a [URLError] and the
    exception itself for any other; a bad destination gives the
    [FileError] of [check_and_get_dest]; then, with one URI or more,
    the first call of [streamer.download] gives [TypeError], and only
    with no URI at all the file name is returned. *)
Theorem clitool_download_outcome (from_uri : string -> res Streamer.Chunk)
    (a : Clitool.args) (w : world) :
  let tried :=
    set_wire (wire w ++ [Request GET (Clitool.a_server a) []]) w in
  Clitool.download from_uri a w =
  match Clitool.parse_uris from_uri (Clitool.a_uri a) with
  | Raise e => (Raise e, w)
  | Ok shards =>
      (match urlopen w (Clitool.a_server a) with
       | Some e =>
           if decide (exn_class e = URLError) then
             Raise (Exn ConnectError ["Could not connect to server."])
           else Raise e
       | None =>
           match
             fst (Clitool.check_and_get_dest (Clitool.a_dest a) tried)
           with
           | Raise e => Raise e
           | Ok (path, fname) =>
               match shards with
               | [] => Ok fname
               | _ :: _ =>
                   Raise
                     (Exn TypeError
                        ["download() got an unexpected keyword argument "
                           ++ "'slicesize'"])
               end
           end
       end, tried)
  end.
Proof.
  intros tried. unfold Clitool.download. unfold bind at 1. unfold lift.
  destruct (Clitool.parse_uris from_uri (Clitool.a_uri a)) as [shards|e];
    [|reflexivity].
  unfold bind at 1.
  unfold Streamer.init, Streamer.check_connectivity, Streamer.probe.
  step_monad. fold tried.
  destruct (urlopen w (Clitool.a_server a)) as [e|]; simpl.
  { destruct (decide (exn_class e = URLError)); reflexivity. }
  pose proof (check_and_get_dest_reads_only (Clitool.a_dest a) tried) as Hw.
  destruct (Clitool.check_and_get_dest (Clitool.a_dest a) tried)
    as [[[path fname]|e] w1]; simpl in Hw; subst w1; simpl;
    [|reflexivity].
  destruct shards as [|sh shards]; reflexivity.
Qed.

(** ** [Streamer._filestream] *)

(** X11. The generator [_filestream] never yields a piece.  Its first
    [next()] raises [IOError] when the file cannot be opened and
    [AttributeError] otherwise, never the [FileError] of its docstring,
    and the world is unchanged. *)
Theorem filestream_never_yields (self : Streamer.t) (filepath : string)
    (w : world) :
  snd (Streamer._filestream_first self filepath w) = w
  /\ exists e,
       fst (Streamer._filestream_first self filepath w) = Raise e
       /\ exn_class e =
          if Os.isfile w (Os.expanduser w filepath) then AttributeError
          else IOError.
Proof.
  unfold Streamer._filestream_first, Os.read_file, Os.isfile.
  step_monad.
  destruct (Os.stat w (Os.expanduser w filepath)) as [[n|d]|];
    (split; [reflexivity|]); eexists; split; reflexivity.
Qed.

(** ** [parse_shard_size] on well-formed input *)

Lemma digit_not_space (c : ascii) :
  Str.is_digit c = true -> Str.is_space c = false.
Proof.
  unfold Str.is_digit, Str.is_space. intros H.
  apply andb_prop in H. destruct H as [H1 H2].
  apply Nat.leb_le in H1. apply Nat.leb_le in H2.
  apply orb_false_iff. split.
  - apply Nat.eqb_neq. lia.
  - apply andb_false_iff. right. apply Nat.leb_gt. lia.
Qed.

Lemma digit_not_sign (c : ascii) :
  Str.is_digit c = true -> c <> "-"%char /\ c <> "+"%char.
Proof. intros H. split; intros ->; discriminate H. Qed.

Lemma rstrip_all_digits (s : string) :
  Str.all_digits s = true -> Str.rstrip s = s.
Proof.
  induction s as [|c r IH]; [reflexivity|]. simpl. intros H.
  apply andb_prop in H. destruct H as [Hc Hr].
  rewrite (IH Hr). destruct r; [|reflexivity].
  rewrite (digit_not_space c Hc). reflexivity.
Qed.

Lemma int_of_str_digits (s : string) :
  Str.isdigit s = true ->
  Clitool.int_of_str s = Ok (Str.digits_value 0 s).
Proof.
  intros H. unfold Clitool.int_of_str.
  destruct s as [|c r]; [discriminate|].
  assert (Ha : Str.all_digits (String c r) = true) by exact H.
  pose proof Ha as Ha'. simpl in Ha'. apply andb_prop in Ha'.
  destruct Ha' as [Hc _].
  assert (Hl : Str.lstrip (String c r) = String c r)
    by (simpl; rewrite (digit_not_space c Hc); reflexivity).
  rewrite Hl, (rstrip_all_digits _ Ha).
  destruct (digit_not_sign c Hc) as [Hm Hp].
  destruct (Ascii.eqb_spec c "-") as [->|_]; [contradiction|].
  destruct (Ascii.eqb_spec c "+") as [->|_]; [contradiction|].
  assert (Hsplit : match String c r with
                   | String "-" r0 => (true, r0)
                   | String "+" r0 => (false, r0)
                   | _ => (false, String c r)
                   end = (false, String c r)).
  { destruct c as [[|] [|] [|] [|] [|] [|] [|] [|]];
      try reflexivity; contradiction. }
  rewrite Hsplit, H. reflexivity.
Qed.

Lemma int_of_str_minus_digits (s : string) :
  Str.isdigit s = true ->
  Clitool.int_of_str (String "-" s) = Ok (- Str.digits_value 0 s).
Proof.
  intros H. unfold Clitool.int_of_str.
  destruct s as [|c r]; [discriminate|].
  assert (Ha : Str.all_digits (String c r) = true) by exact H.
  assert (Hl : Str.lstrip (String "-" (String c r)) =
               String "-" (String c r)) by reflexivity.
  rewrite Hl.
  assert (Hr : Str.rstrip (String "-" (String c r)) =
               String "-" (String c r)).
  { change (Str.rstrip (String "-" (String c r)))
      with (match Str.rstrip (String c r) with
            | EmptyString => if Str.is_space "-" then "" else String "-" ""
            | r' => String "-" r'
            end).
    rewrite (rstrip_all_digits _ Ha). reflexivity. }
  rewrite Hr, H. reflexivity.
Qed.

Lemma digits_value_nonneg (s : string) (acc : Z) :
  Str.all_digits s = true -> 0 <= acc -> 0 <= Str.digits_value acc s.
Proof.
  revert acc. induction s as [|c r IH]; intros acc H Hacc; [exact Hacc|].
  simpl in *. apply andb_prop in H. destruct H as [Hc Hr].
  apply IH; [exact Hr|].
  unfold Str.is_digit in Hc. apply andb_prop in Hc. destruct Hc as [H1 _].
  apply Nat.leb_le in H1. lia.
Qed.

Lemma parse_with_suffix (number : string) (c : ascii) :
  existsb (Ascii.eqb (Str.lower c)) ["b"; "k"; "m"]%char = true ->
  Clitool.parse_shard_size (Clitool.SizeStr (number ++ String c "")) =
  (if Ascii.eqb (Str.lower c) "b" then
     rbind (Clitool.int_of_str number) (fun n => Ok (Some n))
   else if Ascii.eqb (Str.lower c) "k" then
     rbind (Clitool.int_of_str number)
           (fun n => Ok (Some (Clitool.kib_to_bytes n)))
   else
     rbind (Clitool.int_of_str number)
           (fun n => Ok (Some (Clitool.mib_to_bytes n)))).
Proof.
  intros Hs. unfold Clitool.parse_shard_size. simpl Clitool.str.
  assert (Hd : Str.is_digit c = false).
  { destruct (Str.is_digit c) eqn:E; [|reflexivity].
    exfalso. revert Hs.
    assert (Hl : Str.lower c = c).
    { unfold Str.lower, Str.is_digit in *. apply andb_prop in E.
      destruct E as [E1 E2]. apply Nat.leb_le in E1, E2.
      destruct (Nat.leb_spec 65 (nat_of_ascii c)); [lia|]. reflexivity. }
    rewrite Hl.
    destruct c as [[|] [|] [|] [|] [|] [|] [|] [|]];
      try discriminate E; discriminate. }
  rewrite (isdigit_app_char _ _ Hd), unsnoc_app_char.
  cbv zeta. rewrite Hs. simpl negb. cbv iota.
  destruct (Ascii.eqb (Str.lower c) "b") eqn:Eb; [reflexivity|].
  destruct (Ascii.eqb (Str.lower c) "k") eqn:Ek; [reflexivity|].
  destruct (Ascii.eqb (Str.lower c) "m") eqn:Em; [reflexivity|].
  simpl in Hs. rewrite Eb, Ek, Em in Hs. discriminate.
Qed.

(** ** Decimal numerals: [str] and [int] undo each other *)

Lemma all_digits_of_uint (d : Decimal.uint) :
  Str.all_digits (NilEmpty.string_of_uint d) = true.
Proof. induction d; simpl; auto. Qed.

Lemma digits_value_of_uint_acc (d : Decimal.uint) (acc : positive) :
  Str.digits_value (Z.pos acc) (NilEmpty.string_of_uint d) =
  Z.pos (Pos.of_uint_acc d acc).
Proof.
  revert acc. induction d; intros acc; [reflexivity|..];
    cbn [NilEmpty.string_of_uint Str.digits_value Pos.of_uint_acc];
    rewrite <- IHd; f_equal;
    match goal with
    | |- context [nat_of_ascii ?c] =>
        let v := eval vm_compute in (Z.of_nat (nat_of_ascii c) - 48) in
        change (Z.of_nat (nat_of_ascii c) - 48) with v
    end; lia.
Qed.

Lemma digits_value_of_uint (d : Decimal.uint) :
  Str.digits_value 0 (NilEmpty.string_of_uint d) = Z.of_N (Pos.of_uint d).
Proof.
  induction d; [reflexivity|..];
    cbn [NilEmpty.string_of_uint Str.digits_value Pos.of_uint];
    match goal with
    | |- context [nat_of_ascii ?c] =>
        let v := eval vm_compute in
          (10 * 0 + (Z.of_nat (nat_of_ascii c) - 48)) in
        change (10 * 0 + (Z.of_nat (nat_of_ascii c) - 48)) with v
    end;
    [exact IHd | apply digits_value_of_uint_acc ..].
Qed.

Lemma str_of_int_pos (p : positive) :
  str_of_int (Z.pos p) = NilEmpty.string_of_uint (Pos.to_uint p)
  /\ Str.isdigit (str_of_int (Z.pos p)) = true
  /\ Str.digits_value 0 (str_of_int (Z.pos p)) = Z.pos p.
Proof.
  assert (E : str_of_int (Z.pos p) = NilEmpty.string_of_uint (Pos.to_uint p)).
  { unfold str_of_int, NilZero.string_of_int, NilZero.string_of_uint.
    simpl Z.to_int.
    pose proof (DecimalPos.Unsigned.to_uint_nonnil p) as Hn.
    destruct (Pos.to_uint p); [contradiction|reflexivity..]. }
  split; [exact E|]. rewrite E. split.
  - unfold Str.isdigit.
    pose proof (DecimalPos.Unsigned.to_uint_nonnil p) as Hn.
    destruct (Pos.to_uint p) eqn:Ed; [contradiction|..];
      rewrite <- Ed; rewrite all_digits_of_uint;
      rewrite Ed; reflexivity.
  - rewrite digits_value_of_uint, DecimalPos.Unsigned.of_to. reflexivity.
Qed.

Lemma str_of_int_nonneg (n : Z) :
  0 <= n ->
  Str.isdigit (str_of_int n) = true
  /\ Str.digits_value 0 (str_of_int n) = n.
Proof.
  intros Hn. destruct n as [|p|p]; [split; reflexivity | | lia].
  destruct (str_of_int_pos p) as (_ & H1 & H2). split; assumption.
Qed.

Lemma str_of_int_neg (p : positive) :
  str_of_int (Z.neg p) = String "-" (str_of_int (Z.pos p)).
Proof.
  destruct (str_of_int_pos p) as (E & _). rewrite E.
  unfold str_of_int, NilZero.string_of_int, NilZero.string_of_uint.
  simpl Z.to_int.
  pose proof (DecimalPos.Unsigned.to_uint_nonnil p) as Hn.
  destruct (Pos.to_uint p); [contradiction|reflexivity..].
Qed.

(** [int(str(n))] is [n]. *)
Lemma int_of_str_of_int (n : Z) : Clitool.int_of_str (str_of_int n) = Ok n.
Proof.
  destruct n as [|p|p].
  - reflexivity.
  - destruct (str_of_int_pos p) as (_ & H1 & H2).
    rewrite int_of_str_digits by exact H1. rewrite H2. reflexivity.
  - destruct (str_of_int_pos p) as (_ & H1 & H2).
    rewrite str_of_int_neg, int_of_str_minus_digits by exact H1.
    rewrite H2. reflexivity.
Qed.

(** X12. A decimal integer followed by one of the letters [b], [k] and
    [m], in either case, is parsed to the integer times 1, 1024 or
    1024 * 1024.  The integer may be negative: no sign is refused. *)
Theorem parse_scales_by_suffix (n : Z) (c : ascii) :
  existsb (Ascii.eqb (Str.lower c)) ["b"; "k"; "m"]%char = true ->
  Clitool.parse_shard_size
    (Clitool.SizeStr (str_of_int n ++ String c "")) =
  Ok (Some (n * (if Ascii.eqb (Str.lower c) "b" then 1
                 else if Ascii.eqb (Str.lower c) "k" then 1024
                 else 1024 * 1024))).
Proof.
  intros Hs. rewrite (parse_with_suffix _ _ Hs), int_of_str_of_int.
  unfold rbind, Clitool.kib_to_bytes, Clitool.mib_to_bytes.
  destruct (Ascii.eqb (Str.lower c) "b");
    [|destruct (Ascii.eqb (Str.lower c) "k")]; do 2 f_equal; lia.
Qed.

Lemma parse_scales_by_suffix_witness :
  Clitool.parse_shard_size (Clitool.SizeStr "250m") = Ok (Some 262144000)
  /\ Clitool.parse_shard_size (Clitool.SizeStr "512K") = Ok (Some 524288)
  /\ Clitool.parse_shard_size (Clitool.SizeStr "-5k") = Ok (Some (-5120)).
Proof.
  split; [|split].
  - apply (parse_scales_by_suffix 250 "m"). reflexivity.
  - apply (parse_scales_by_suffix 512 "K"). reflexivity.
  - apply (parse_scales_by_suffix (-5) "k"). reflexivity.
Defined.

Lemma unsnoc_last_digit (s i : string) (c : ascii) :
  Str.all_digits s = true -> Str.unsnoc s = Some (i, c) ->
  Str.is_digit c = true.
Proof.
  revert i c. induction s as [|x s IH]; intros i c Ha Hu; [discriminate|].
  simpl in Ha. apply andb_prop in Ha. destruct Ha as [Hx Hs].
  simpl in Hu. destruct (Str.unsnoc s) as [[i' l]|] eqn:E.
  - injection Hu as <- <-. eapply IH; [exact Hs | reflexivity].
  - injection Hu as <- <-. exact Hx.
Qed.

Lemma digit_not_suffix (c : ascii) :
  Str.is_digit c = true ->
  existsb (Ascii.eqb (Str.lower c)) ["b"; "k"; "m"]%char = false.
Proof.
  destruct c as [[|] [|] [|] [|] [|] [|] [|] [|]];
    intros H; try discriminate H; reflexivity.
Qed.

(** X13. An integer without a suffix, the default of [--shard-size]
    among them, goes through [str], [isdigit] and [int] unchanged when
    it is not negative.  A negative one is not all digits, ends in a
    digit rather than a suffix, and is parsed to [None]. *)
Theorem parse_plain_integer (n : Z) :
  Clitool.parse_shard_size (Clitool.SizeInt n) =
    Ok (if Z.leb 0 n then Some n else None)
  /\ Clitool.parse_shard_size (Clitool.SizeStr (str_of_int n)) =
    Ok (if Z.leb 0 n then Some n else None).
Proof.
  assert (H : Clitool.parse_shard_size (Clitool.SizeStr (str_of_int n)) =
              Ok (if Z.leb 0 n then Some n else None)).
  { unfold Clitool.parse_shard_size. simpl Clitool.str.
    destruct (Z.leb_spec 0 n) as [Hn|Hn].
    - destruct (str_of_int_nonneg n Hn) as [H1 H2].
      rewrite H1, int_of_str_digits by exact H1. rewrite H2. reflexivity.
    - destruct n as [|p|p]; try lia.
      destruct (str_of_int_pos p) as (_ & H1 & _).
      rewrite str_of_int_neg.
      assert (Hi : Str.isdigit (String "-" (str_of_int (Z.pos p))) = false)
        by reflexivity.
      rewrite Hi.
      assert (Ha : Str.all_digits (str_of_int (Z.pos p)) = true).
      { unfold Str.isdigit in H1.
        destruct (str_of_int (Z.pos p)); [discriminate | exact H1]. }
      destruct (Str.unsnoc (String "-" (str_of_int (Z.pos p))))
        as [[number c]|] eqn:Eu.
      + assert (Hc : Str.is_digit c = true).
        { simpl in Eu.
          destruct (Str.unsnoc (str_of_int (Z.pos p))) as [[i l]|] eqn:E.
          - injection Eu as <- <-. eapply unsnoc_last_digit; eassumption.
          - destruct (str_of_int (Z.pos p)) as [|x r]; [discriminate|].
            destruct (unsnoc_cons_some x r) as (i & l & E').
            rewrite E' in E. discriminate. }
        cbv zeta. rewrite (digit_not_suffix c Hc). reflexivity.
      + simpl in Eu. destruct (Str.unsnoc (str_of_int (Z.pos p)))
          as [[i l]|]; discriminate. }
  split; [exact H | exact H].
Qed.

(** X14. A suffix after something that [int] does not accept, nothing
    at all included, raises the [ValueError] of [int]; the empty string
    raises [IndexError].  Neither is caught. *)
Theorem parse_rejects_bad_magnitude (number : string) (c : ascii) :
  existsb (Ascii.eqb (Str.lower c)) ["b"; "k"; "m"]%char = true ->
  (forall n, Clitool.int_of_str number <> Ok n) ->
  raises (Clitool.parse_shard_size
            (Clitool.SizeStr (number ++ String c ""))) ValueError
  /\ raises (Clitool.parse_shard_size (Clitool.SizeStr "")) IndexError.
Proof.
  intros Hs Hn. split; [|eexists; reflexivity].
  rewrite (parse_with_suffix _ _ Hs).
  destruct (Clitool.int_of_str number) as [n|[cls args]] eqn:E;
    [exfalso; apply (Hn n); reflexivity|].
  apply int_of_str_class in E. simpl in E. subst cls.
  unfold rbind.
  destruct (Ascii.eqb (Str.lower c) "b");
    [|destruct (Ascii.eqb (Str.lower c) "k")]; eexists; reflexivity.
Qed.

Lemma parse_rejects_bad_magnitude_witness :
  raises (Clitool.parse_shard_size (Clitool.SizeStr "k")) ValueError
  /\ raises (Clitool.parse_shard_size (Clitool.SizeStr "1.5m")) ValueError.
Proof.
  split.
  - apply (parse_rejects_bad_magnitude "" "k"); [reflexivity|].
    intros n. vm_compute. discriminate.
  - apply (parse_rejects_bad_magnitude "1.5" "m"); [reflexivity|].
    intros n. vm_compute. discriminate.
Defined.

(** ** The shape of the plan *)

Section PlanShape.

Local Open Scope Z_scope.

Lemma shard_loop_closed (n : nat) (a sz : Z) :
  Clitool.shard_loop n a (a + sz) sz =
  map (fun i => (a + Z.of_nat i * sz, a + (Z.of_nat i + 1) * sz)) (seq 0 n).
Proof.
  revert a. induction n as [|n IH]; intros a; [reflexivity|].
  cbn [Clitool.shard_loop seq map]. f_equal.
  - f_equal; lia.
  - rewrite IH, <- seq_shift, map_map. apply map_ext.
    intros i. f_equal; lia.
Qed.

Lemma shard_loop_last (n : nat) (a sz : Z) (d : Z * Z) :
  List.last (Clitool.shard_loop (S n) a (a + sz) sz) d =
  (a + Z.of_nat n * sz, a + (Z.of_nat n + 1) * sz).
Proof.
  revert a. induction n as [|n IH]; intros a.
  - simpl. f_equal; lia.
  - change (Clitool.shard_loop (S (S n)) a (a + sz) sz)
      with ((a, a + sz)
              :: Clitool.shard_loop (S n) (a + sz) (a + sz + sz) sz).
    change (List.last ((a, a + sz)
              :: Clitool.shard_loop (S n) (a + sz) (a + sz + sz) sz) d)
      with (List.last (Clitool.shard_loop (S n) (a + sz) (a + sz + sz) sz) d).
    rewrite IH. f_equal; lia.
Qed.

Lemma shard_loop_inside (n : nat) (a sz F : Z) :
  0 < sz -> a + Z.of_nat n * sz <= F ->
  Forall (fun r => clamp F r = r) (Clitool.shard_loop n a (a + sz) sz).
Proof.
  intros Hsz. revert a. induction n as [|n IH]; intros a Ha; simpl;
    constructor.
  - unfold clamp. simpl. f_equal. lia.
  - apply IH. lia.
Qed.

Lemma shard_loop_removelast (n : nat) (a sz : Z) :
  removelast (Clitool.shard_loop (S n) a (a + sz) sz) =
  Clitool.shard_loop n a (a + sz) sz.
Proof.
  revert a. induction n as [|n IH]; intros a; [reflexivity|].
  change (Clitool.shard_loop (S (S n)) a (a + sz) sz)
    with ((a, a + sz)
            :: Clitool.shard_loop (S n) (a + sz) (a + sz + sz) sz).
  change (Clitool.shard_loop (S n) a (a + sz) sz)
    with ((a, a + sz) :: Clitool.shard_loop n (a + sz) (a + sz + sz) sz).
  rewrite <- IH. reflexivity.
Qed.

Lemma plan_shards_is_loop (file_size shard_size : Z) :
  0 < file_size < 2 ^ 53 -> 0 < shard_size < 2 ^ 53 ->
  Clitool.plan_shards file_size (Some shard_size) =
  Ok (Clitool.shard_loop (Z.to_nat (cdiv file_size shard_size))
        0 shard_size shard_size)
  /\ 0 < cdiv file_size shard_size.
Proof.
  intros Hf Hs. unfold Clitool.plan_shards.
  rewrite (num_shards_exact _ _ Hf Hs). split; [reflexivity|].
  pose proof (cdiv_bounds file_size shard_size ltac:(lia)). nia.
Qed.

(** X15. Below [2^53] the plan is the list of the ranges
    [(i * shard_size, (i + 1) * shard_size)] for [i] from 0 to the count
    less one: every range, the last one too, has the nominal length. *)
Theorem plan_shards_closed_form (file_size shard_size : Z) :
  0 < file_size < 2 ^ 53 -> 0 < shard_size < 2 ^ 53 ->
  Clitool.plan_shards file_size (Some shard_size) =
  Ok (map (fun i => (Z.of_nat i * shard_size,
                     (Z.of_nat i + 1) * shard_size))
          (seq 0 (Z.to_nat (cdiv file_size shard_size)))).
Proof.
  intros Hf Hs. destruct (plan_shards_is_loop _ _ Hf Hs) as [-> _].
  f_equal.
  rewrite (shard_loop_closed _ 0 shard_size : Clitool.shard_loop _ 0
             (0 + shard_size) shard_size = _).
  apply map_ext. intros i. f_equal.
Qed.

Lemma plan_shards_closed_form_witness :
  Clitool.plan_shards 10 (Some 4) = Ok [(0, 4); (4, 8); (8, 12)].
Proof.
  apply (plan_shards_closed_form 10 4); lia.
Defined.

(** X16. Below [2^53]: the last range of the plan begins inside the file
    and ends at or after its end, the ranges before it lie inside the
    file, so clamping changes none of them, and the clamped length of
    the last range is the remainder of the division of the file size by
    the shard size, or the shard size when that remainder is 0. *)
Theorem plan_shards_last_range (file_size shard_size : Z) :
  0 < file_size < 2 ^ 53 -> 0 < shard_size < 2 ^ 53 ->
  exists l,
    Clitool.plan_shards file_size (Some shard_size) = Ok l
    /\ List.last l (0, 0) =
       ((cdiv file_size shard_size - 1) * shard_size,
        cdiv file_size shard_size * shard_size)
    /\ fst (List.last l (0, 0)) < file_size <= snd (List.last l (0, 0))
    /\ Forall (fun r => clamp file_size r = r) (removelast l)
    /\ range_len (clamp file_size (List.last l (0, 0))) =
       (if Z.eqb (file_size mod shard_size) 0 then shard_size
        else file_size mod shard_size).
Proof.
  intros Hf Hs. destruct (plan_shards_is_loop _ _ Hf Hs) as [Hp Hc].
  pose proof (cdiv_bounds file_size shard_size ltac:(lia)) as Hb.
  set (c := cdiv file_size shard_size) in *.
  destruct (Z.to_nat c) as [|n] eqn:En; [lia|].
  assert (Hn : Z.of_nat n = c - 1) by lia.
  eexists. split; [exact Hp|].
  pose proof (shard_loop_last n 0 shard_size (0, 0)) as Hl.
  rewrite Z.add_0_l in Hl. rewrite Hl, Hn. clear Hl.
  replace (c - 1 + 1) with c by lia. rewrite !Z.add_0_l.
  split; [reflexivity|]. simpl fst. simpl snd.
  split; [lia|]. split.
  - pose proof (shard_loop_removelast n 0 shard_size) as Hr.
    rewrite Z.add_0_l in Hr. rewrite Hr.
    pose proof (shard_loop_inside n 0 shard_size file_size ltac:(lia)) as Hi.
    rewrite Z.add_0_l in Hi. apply Hi. lia.
  - unfold range_len, clamp. simpl fst. simpl snd.
    rewrite Z.min_r by lia.
    pose proof (Z.div_mod file_size shard_size ltac:(lia)) as Hdm.
    pose proof (Z.mod_pos_bound file_size shard_size ltac:(lia)) as Hmb.
    set (q := file_size / shard_size) in *.
    set (r := file_size mod shard_size) in *.
    destruct (Z.eqb_spec r 0) as [E|E].
    + assert (q = c) by nia. nia.
    + assert (q = c - 1) by nia. nia.
Qed.

Lemma plan_shards_last_range_witness :
  exists l,
    Clitool.plan_shards 10 (Some 4) = Ok l
    /\ List.last l (0, 0) = (8, 12)
    /\ range_len (clamp 10 (List.last l (0, 0))) = 2.
Proof.
  destruct (plan_shards_last_range 10 4 ltac:(lia) ltac:(lia))
    as (l & Hp & Hl & _ & _ & Hc).
  exists l. split; [exact Hp|]. split; [exact Hl | exact Hc].
Defined.

(** X17. A file that is not larger than the shard size is planned as
    the one range [(0, shard_size)]. *)
Theorem plan_shards_single (file_size shard_size : Z) :
  0 < file_size -> file_size <= shard_size -> shard_size < 2 ^ 53 ->
  Clitool.plan_shards file_size (Some shard_size) = Ok [(0, shard_size)].
Proof.
  intros Hf Hle Hs.
  destruct (plan_shards_is_loop file_size shard_size ltac:(lia) ltac:(lia))
    as [-> _].
  rewrite (cdiv_unique file_size shard_size 1) by lia. reflexivity.
Qed.

Lemma plan_shards_single_witness :
  Clitool.plan_shards 6 (Some 262144000) = Ok [(0, 262144000)].
Proof. apply plan_shards_single; lia. Defined.

End PlanShape.

(** ** Plans at the edges: no bytes, a negative size, no size *)

Section PlanEdges.

Local Open Scope Z_scope.

Lemma binary_round_aux_sign (m e : Z) (l : location) :
  binary_round_aux PyFloat.prec PyFloat.emax true m e l =
  SFopp (binary_round_aux PyFloat.prec PyFloat.emax false m e l).
Proof.
  unfold binary_round_aux.
  destruct (shr_fexp PyFloat.prec PyFloat.emax m e l) as [mrs' e'].
  destruct (shr_fexp PyFloat.prec PyFloat.emax _ e' loc_Exact)
    as [mrs'' e''].
  destruct (shr_m mrs''); [reflexivity | | reflexivity].
  destruct (e'' <=? PyFloat.emax - PyFloat.prec); reflexivity.
Qed.

Lemma binary_round_sign (p : positive) (e : Z) :
  binary_round PyFloat.prec PyFloat.emax true p e =
  SFopp (binary_round PyFloat.prec PyFloat.emax false p e).
Proof.
  unfold binary_round.
  destruct (shl_align p e _) as [mz ez]. apply binary_round_aux_sign.
Qed.

Lemma float_of_int_negative (z : Z) (m : positive) (e : Z) :
  0 < z ->
  PyFloat.float_of_int z = Ok (S754_finite false m e) ->
  PyFloat.float_of_int (- z) = Ok (S754_finite true m e).
Proof.
  intros Hz. destruct z as [|p|p]; try lia.
  unfold PyFloat.float_of_int.
  change (binary_normalize PyFloat.prec PyFloat.emax (- Z.pos p) 0 false)
    with (binary_round PyFloat.prec PyFloat.emax true p 0).
  change (binary_normalize PyFloat.prec PyFloat.emax (Z.pos p) 0 false)
    with (binary_round PyFloat.prec PyFloat.emax false p 0).
  rewrite binary_round_sign.
  destruct (binary_round PyFloat.prec PyFloat.emax false p 0);
    try discriminate.
  intros [= -> -> ->]. reflexivity.
Qed.

Lemma quotient_finite (mx my : positive) (ex ey : Z) :
  Z.pos (digits2_pos mx) = 53 -> Z.pos (digits2_pos my) = 53 ->
  -52 <= ex <= 0 -> -52 <= ey <= 0 ->
  exists M E,
    SFdiv PyFloat.prec PyFloat.emax (S754_finite false mx ex)
      (S754_finite false my ey) = S754_finite false M E.
Proof.
  intros Hdx Hdy Hex Hey. rewrite SFdiv_normal by assumption.
  pose proof (digits2_bounds mx) as Bx. rewrite Hdx in Bx.
  pose proof (digits2_bounds my) as By. rewrite Hdy in By.
  set (N := Z.pos mx * 2 ^ 53). set (D := Z.pos my).
  assert (HD : 0 < D) by (unfold D; lia).
  assert (HN : 0 <= N) by (unfold N; lia).
  assert (Hq : 2 ^ 52 <= N / D < 2 ^ 54).
  { split.
    - apply Z.div_le_lower_bound; [lia|]. unfold N, D. simpl in *. nia.
    - apply Z.div_lt_upper_bound; [lia|]. unfold N, D. simpl in *. nia. }
  destruct (Z_lt_le_dec (N / D) (2 ^ 53)) as [H53|H54].
  - destruct (binary_round_aux_located N D (ex - ey - 53) HD HN
                ltac:(lia) ltac:(lia)) as (M & E & -> & _).
    eauto.
  - rewrite binary_round_aux_shift by lia.
    assert (Hh : 2 ^ 52 <= N / (2 * D) < 2 ^ 53).
    { rewrite (Z.mul_comm 2 D), <- Z.div_div by lia.
      split.
      - apply Z.div_le_lower_bound; lia.
      - apply Z.div_lt_upper_bound; lia. }
    destruct (binary_round_aux_located N (2 * D) (ex - ey - 53 + 1)
                ltac:(lia) HN Hh ltac:(lia)) as (M & E & -> & _).
    eauto.
Qed.

Lemma SFdiv_by_negative (mx my : positive) (ex ey : Z) :
  SFdiv PyFloat.prec PyFloat.emax (S754_finite false mx ex)
    (S754_finite true my ey) =
  SFopp (SFdiv PyFloat.prec PyFloat.emax (S754_finite false mx ex)
           (S754_finite false my ey)).
Proof.
  unfold SFdiv.
  destruct (SFdiv_core_binary PyFloat.prec PyFloat.emax (Z.pos mx) ex
              (Z.pos my) ey) as [[mz ez] lz].
  apply binary_round_aux_sign.
Qed.

Lemma ceil_finite_negative (m : positive) (e : Z) :
  PyFloat.ceil_finite true m e <= 0.
Proof.
  unfold PyFloat.ceil_finite. destruct e as [|k|k].
  - simpl. lia.
  - assert (0 < 2 ^ Z.pos k) by (apply Z.pow_pos_nonneg; lia). nia.
  - assert (0 < 2 ^ Z.pos k) by (apply Z.pow_pos_nonneg; lia).
    assert (0 <= Z.pos m / 2 ^ Z.pos k) by (apply Z.div_pos; lia). lia.
Qed.

(** X18. An empty file is planned as no range at all: for a shard size
    between 1 and [2^53], [calculate_shards] returns the empty list and
    raises nothing. *)
Theorem calculate_shards_empty_file (a : Clitool.args) (filepath : string)
    (shard_size : Z) (w : world) :
  Os.stat w filepath = Some (File []) ->
  0 < shard_size < 2 ^ 53 ->
  Clitool.calculate_shards a (Some shard_size) filepath w = (Ok [], w).
Proof.
  intros Hst Hs.
  destruct (float_of_int_exact shard_size Hs) as (my & ey & Hy & _).
  unfold Clitool.calculate_shards, Os.getsize, bind, lift. rewrite Hst.
  unfold Clitool.plan_shards, Clitool.num_shards, PyFloat.int_truediv.
  rewrite Hy. reflexivity.
Qed.

Lemma calculate_shards_empty_file_witness :
  let w := set_fs (<[ ["tmp"; "empty"] := File [] ]> Demo.files)
             (Demo.world_with Demo.store) in
  Clitool.calculate_shards
    (Demo.cli "/tmp/empty" (Clitool.SizeStr "4") [] None)
    (Some 4) "/tmp/empty" w = (Ok [], w).
Proof.
  intros w. apply calculate_shards_empty_file; [vm_compute; reflexivity|lia].
Defined.

(** X19. A negative shard size is not refused: for a file of fewer than
    [2^53] bytes and a shard size between [-2^53] and 0, the count is
    not positive and the plan is the empty list. *)
Theorem plan_shards_negative_size (file_size shard_size : Z) :
  0 <= file_size < 2 ^ 53 -> - 2 ^ 53 < shard_size < 0 ->
  Clitool.plan_shards file_size (Some shard_size) = Ok [].
Proof.
  intros Hf Hs.
  destruct (float_of_int_exact (- shard_size) ltac:(lia))
    as (my & ey & Hy & Hdy & Hey & _).
  apply float_of_int_negative in Hy; [|lia].
  rewrite Z.opp_involutive in Hy.
  unfold Clitool.plan_shards, Clitool.num_shards, PyFloat.int_truediv.
  rewrite Hy. cbn [rbind].
  destruct (Z.eq_dec file_size 0) as [->|Hne]; [reflexivity|].
  destruct (float_of_int_exact file_size ltac:(lia))
    as (mx & ex & Hx & Hdx & Hex & _).
  rewrite Hx. cbn [rbind]. unfold PyFloat.truediv. cbv iota.
  rewrite SFdiv_by_negative.
  destruct (quotient_finite mx my ex ey Hdx Hdy Hex Hey) as (M & E & ->).
  cbn [SFopp negb PyFloat.int_ceil rbind].
  pose proof (ceil_finite_negative M E) as Hc.
  destruct (PyFloat.ceil_finite true M E) as [|p|p]; try lia; reflexivity.
Qed.

Lemma plan_shards_negative_size_witness :
  Clitool.plan_shards 10 (Some (-3)) = Ok [].
Proof. apply plan_shards_negative_size; lia. Defined.

(** X20. The [None] that [parse_shard_size] returns for an unknown
    suffix is what [calculate_shards] then receives as the shard size:
    for a file that exists, it raises the [TypeError] of [float(None)]. *)
Theorem unknown_suffix_fails_in_calculate_shards (a : Clitool.args)
    (number : string) (c : ascii) (filepath : string) (nd : node)
    (w : world) :
  Str.is_digit c = false ->
  existsb (Ascii.eqb (Str.lower c)) ["b"; "k"; "m"]%char = false ->
  Os.stat w filepath = Some nd ->
  exists size,
    Clitool.parse_shard_size (Clitool.SizeStr (number ++ String c ""))
    = Ok size
    /\ raises (fst (Clitool.calculate_shards a size filepath w)) TypeError
    /\ snd (Clitool.calculate_shards a size filepath w) = w.
Proof.
  intros Hd Hs Hst. exists None. split.
  - unfold Clitool.parse_shard_size. simpl Clitool.str.
    rewrite (isdigit_app_char _ _ Hd), unsnoc_app_char.
    cbv zeta. rewrite Hs. reflexivity.
  - unfold Clitool.calculate_shards, Os.getsize, bind, lift. rewrite Hst.
    destruct nd; (split; [eexists|]); reflexivity.
Qed.

Lemma unknown_suffix_fails_in_calculate_shards_witness :
  exists size,
    Clitool.parse_shard_size (Clitool.SizeStr "100x") = Ok size
    /\ raises (fst (Clitool.calculate_shards
                      (Demo.cli "/data/f" (Clitool.SizeStr "100x") [] None)
                      size "/data/f" (Demo.world_with Demo.store)))
         TypeError.
Proof.
  destruct (unknown_suffix_fails_in_calculate_shards
              (Demo.cli "/data/f" (Clitool.SizeStr "100x") [] None)
              "100" "x" "/data/f" (File (Demo.bytes "abcdef"))
              (Demo.world_with Demo.store))
    as (size & Hp & Hr & _);
    [reflexivity | reflexivity | vm_compute; reflexivity |].
  exists size. split; [exact Hp | exact Hr].
Defined.

End PlanEdges.

(** ** One file after the other, and there and back *)

Lemma walk_insert_file (f : gmap (list string) node) (k : list string)
    (v : list byte) (comps cur r : list string) :
  f !! k = None ->
  Os.walk f cur comps = Some r ->
  Os.walk (<[k := File v]> f) cur comps = Some r.
Proof.
  intros Hk. revert cur. induction comps as [|c rest IH]; intros cur;
    [intros H; exact H|].
  simpl. destruct (f !! cur) as [[n|dd]|] eqn:E; try discriminate.
  assert (Hne : k <> cur) by (intros ->; congruence).
  rewrite lookup_insert_ne by exact Hne. rewrite E.
  destruct (String.eqb c "" || String.eqb c "."); [apply IH|].
  destruct (String.eqb c ".."); apply IH.
Qed.

(** X21. [Streamer.download] neither overwrites nor appends.  After a
    download that created the file of the destination [d], a further
    download into [d], of any chunk with a [filehash], raises
    [FileError], sends nothing, and leaves the first body in the
    file. *)
Theorem download_refuses_second_write (self : Streamer.t)
    (chunk chunk' : Streamer.Chunk) (d : string) (chunksize chunksize' : Z)
    (k : list string) (w : world) :
  0 < chunksize ->
  Streamer.filehash chunk <> "" -> Streamer.filehash chunk' <> "" ->
  d <> "" ->
  Os.exists_ w d = false -> Os.isdir w (dest_dir w d) = true ->
  status_code (download_response self chunk w) = 200 ->
  Os.resolve w (Os.join (dest_dir w d) (snd (Os.split d))) = Some k ->
  Os.resolve w d = Some k ->
  fs w !! k = None ->
  let w1 := snd (Streamer.download self chunk (Some d) chunksize w) in
  Streamer.download self chunk' (Some d) chunksize' w1 =
    (Raise (Exn FileError [d ++ " already exists"]), w1)
  /\ fs w1 !! k = Some (File (content (download_response self chunk w))).
Proof.
  intros Hc Hh Hh' Hd He Hi Hs Hr Hrd Hk w1. subst w1.
  rewrite (download_200_step self chunk d chunksize k w Hc Hh Hd He Hi Hs
             Hr Hk).
  simpl snd.
  split; [|simpl; apply lookup_insert_eq].
  rewrite download_unfold. unfold download_checks.
  rewrite (eqb_empty_false _ Hh').
  destruct d as [|c r]; [contradiction|].
  assert (Hex : Os.exists_
            (set_fs (<[k := File (content (download_response self chunk w))]>
                       (fs w))
               (set_wire (wire w ++ [download_request self chunk]) w))
            (String c r) = true).
  { unfold Os.exists_, Os.stat, Os.resolve in *. simpl.
    rewrite (walk_insert_file _ _ _ _ _ _ Hk Hrd).
    rewrite lookup_insert_eq. reflexivity. }
  rewrite Hex. reflexivity.
Qed.

Lemma download_refuses_second_write_witness :
  let w := Demo.world_with Demo.store in
  let w1 := snd (Streamer.download Demo.node1 (Demo.shard "h1")
                   (Some "/tmp/out") 1024 w) in
  Streamer.download Demo.node1 (Demo.shard "h2") (Some "/tmp/out") 8 w1 =
    (Raise (Exn FileError ["/tmp/out already exists"]), w1)
  /\ fs w1 !! ["tmp"; "out"] = Some (File (Demo.bytes "ab")).
Proof.
  intros w.
  apply (download_refuses_second_write Demo.node1 (Demo.shard "h1")
           (Demo.shard "h2") "/tmp/out" 1024 8 ["tmp"; "out"] w);
    [lia | simpl; discriminate | simpl; discriminate | discriminate
     | vm_compute; reflexivity | vm_compute; reflexivity
     | vm_compute; reflexivity | vm_compute; reflexivity
     | vm_compute; reflexivity | vm_compute; reflexivity].
Defined.

(** X22. There and back with one file.  When the server answers the
    upload of a file with 201 and a body that parses to [chunk], and
    then answers the download of [chunk] with 200 and the bytes it was
    sent, [Streamer.upload] followed by [Streamer.download] into a new
    destination returns [True] and the new file is a copy of the
    uploaded one.  Two requests were sent and no other file changed. *)
Theorem upload_then_download_copies (from_json : string -> res Streamer.Chunk)
    (self : Streamer.t) (filepath d : string) (data : list byte)
    (chunk : Streamer.Chunk) (chunksize : Z) (k : list string) (w : world) :
  let post := Request POST (Streamer.server self ++ "/api/upload")
                [Part "file" "testfile" data] in
  let get := download_request self chunk in
  0 < chunksize ->
  Os.stat w (Os.expanduser w filepath) = Some (File data) ->
  status_code (remote w (wire w) post) = 201 ->
  from_json (text (remote w (wire w) post)) = Ok chunk ->
  Streamer.filehash chunk <> "" -> d <> "" ->
  Os.exists_ w d = false -> Os.isdir w (dest_dir w d) = true ->
  status_code (remote w (wire w ++ [post]) get) = 200 ->
  content (remote w (wire w ++ [post]) get) = data ->
  Os.resolve w (Os.join (dest_dir w d) (snd (Os.split d))) = Some k ->
  fs w !! k = None ->
  let up := Streamer.upload from_json self filepath w in
  let down := Streamer.download self chunk (Some d) chunksize (snd up) in
  fst up = Ok chunk
  /\ fst down = Ok Streamer.ReturnTrue
  /\ fs (snd down) = <[k := File data]> (fs w)
  /\ wire (snd down) = (wire w ++ [post; get])%list.
Proof.
  intros post get Hcs Hst H201 Hj Hh Hd He Hi H200 Hc Hr Hk up down.
  assert (Hup : up = (Ok chunk, set_wire (wire w ++ [post]) w)).
  { subst up post.
    unfold Streamer.upload, Streamer._upload_form_encoded,
      Streamer._upload_check_path, Os.read_file, Os.isfile.
    step_monad. rewrite Hst. simpl. rewrite Hst. simpl.
    rewrite H201. simpl. rewrite Hj. reflexivity. }
  subst down. rewrite Hup. simpl fst. simpl snd.
  split; [reflexivity|].
  rewrite (download_200_step self chunk d chunksize k
             (set_wire (wire w ++ [post]) w) Hcs Hh Hd He Hi H200 Hr Hk).
  simpl. unfold download_response. simpl.
  fold get. rewrite Hc. rewrite <- app_assoc.
  split; [reflexivity|]. split; reflexivity.
Qed.

Lemma upload_then_download_copies_witness :
  let srv : list request -> request -> response :=
    fun _ rq =>
      match rq_method rq with
      | POST => Response 201 "CREATED" (Demo.bytes "h3") "h3"
      | GET => Response 200 "OK" (Demo.bytes "abcdef") "abcdef"
      end in
  let w := Demo.world_with srv in
  let up := Streamer.upload Demo.shard_of Demo.node1 "/data/f" w in
  let down := Streamer.download Demo.node1 (Demo.shard "h3")
                (Some "/tmp/copy") 4 (snd up) in
  fst up = Ok (Demo.shard "h3")
  /\ fst down = Ok Streamer.ReturnTrue
  /\ fs (snd down) =
     <[ ["tmp"; "copy"] := File (Demo.bytes "abcdef") ]> Demo.files
  /\ wire (snd down) =
     [Request POST "http://node/api/upload"
        [Part "file" "testfile" (Demo.bytes "abcdef")];
      download_request Demo.node1 (Demo.shard "h3")].
Proof.
  intros srv w.
  apply (upload_then_download_copies Demo.shard_of Demo.node1 "/data/f"
           "/tmp/copy" (Demo.bytes "abcdef") (Demo.shard "h3") 4
           ["tmp"; "copy"] w);
    [lia | vm_compute; reflexivity | vm_compute; reflexivity
     | vm_compute; reflexivity | simpl; discriminate | discriminate
     | vm_compute; reflexivity | vm_compute; reflexivity
     | vm_compute; reflexivity | vm_compute; reflexivity
     | vm_compute; reflexivity | vm_compute; reflexivity].
Defined.
